(** * Mergington High School API: a model of [src/app.py]

    The application keeps six module-level dictionaries (activities,
    students, courses, enrollments, attendance, payments) and exposes one
    handler per HTTP route.  Each handler is modelled as a function from the
    current dictionaries to an outcome (the returned JSON value or the raised
    exception) and the dictionaries after the call. *)

From Stdlib Require Import PrimFloat ZArith.
From stdpp Require Import gmap strings list fin_maps.

(** ** Pydantic models and the stored dictionaries

    [x.dict()] of a model instance is the dictionary of its fields; a stored
    record is modelled by the record of those fields. *)

Module Activity.
Record t := mk {
  description : string;
  schedule : string;
  max_participants : Z;
  participants : list string
}.
(** [activity["participants"]] is the list object itself: appending to it or
    removing from it changes the entry of the dictionary that holds it. *)
Definition with_participants (a : t) (l : list string) : t :=
  mk (description a) (schedule a) (max_participants a) l.
End Activity.

Module Student.
Record t := mk {
  name : string;
  email : string;
  grade : string;
  phone : option string
}.
End Student.

Module Course.
Record t := mk {
  name : string;
  description : string;
  schedule : string;
  max_participants : Z;
  instructor : option string
}.
End Course.

Module Enrollment.
Record t := mk {
  student_email : string;
  course_name : string;
  enrollment_date : string
}.
End Enrollment.

Module AttendanceRecord.
Record t := mk {
  student_email : string;
  course_name : string;
  date : string;
  present : bool
}.
End AttendanceRecord.

Module Payment.
Record t := mk {
  student_email : string;
  amount : float;
  course_name : string;
  payment_date : string;
  status : string
}.
End Payment.

(** The six module-level dictionaries.  A [gmap] holds the entry under each
    key and not the order in which the keys were inserted, which a Python
    dictionary also keeps and [list(d.values())] shows: what is stated about
    a state is stated about the entries under its keys, and what is stated
    about a list view is stated up to the order of the list. *)
Record State := mkState {
  activities : gmap string Activity.t;
  students : gmap string Student.t;
  courses : gmap string Course.t;
  enrollments : gmap string Enrollment.t;
  attendance : gmap string AttendanceRecord.t;
  payments : gmap string Payment.t
}.

Definition with_activities (m : gmap string Activity.t) (st : State) : State :=
  mkState m (students st) (courses st) (enrollments st) (attendance st) (payments st).
Definition with_students (m : gmap string Student.t) (st : State) : State :=
  mkState (activities st) m (courses st) (enrollments st) (attendance st) (payments st).
Definition with_courses (m : gmap string Course.t) (st : State) : State :=
  mkState (activities st) (students st) m (enrollments st) (attendance st) (payments st).
Definition with_enrollments (m : gmap string Enrollment.t) (st : State) : State :=
  mkState (activities st) (students st) (courses st) m (attendance st) (payments st).
Definition with_attendance (m : gmap string AttendanceRecord.t) (st : State) : State :=
  mkState (activities st) (students st) (courses st) (enrollments st) m (payments st).
Definition with_payments (m : gmap string Payment.t) (st : State) : State :=
  mkState (activities st) (students st) (courses st) (enrollments st) (attendance st) m.

(** The dictionaries as the module defines them at import time (lines 25-87). *)
Definition initial_activities : gmap string Activity.t :=
  list_to_map [
    ("Chess Club",
     Activity.mk "Learn strategies and compete in chess tournaments"
       "Fridays, 3:30 PM - 5:00 PM" 12
       ["michael@mergington.edu"; "daniel@mergington.edu"]);
    ("Programming Class",
     Activity.mk "Learn programming fundamentals and build software projects"
       "Tuesdays and Thursdays, 3:30 PM - 4:30 PM" 20
       ["emma@mergington.edu"; "sophia@mergington.edu"]);
    ("Gym Class",
     Activity.mk "Physical education and sports activities"
       "Mondays, Wednesdays, Fridays, 2:00 PM - 3:00 PM" 30
       ["john@mergington.edu"; "olivia@mergington.edu"]);
    ("Soccer Team",
     Activity.mk "Join the school soccer team and compete in matches"
       "Tuesdays and Thursdays, 4:00 PM - 5:30 PM" 22
       ["liam@mergington.edu"; "noah@mergington.edu"]);
    ("Basketball Team",
     Activity.mk "Practice and play basketball with the school team"
       "Wednesdays and Fridays, 3:30 PM - 5:00 PM" 15
       ["ava@mergington.edu"; "mia@mergington.edu"]);
    ("Art Club",
     Activity.mk "Explore your creativity through painting and drawing"
       "Thursdays, 3:30 PM - 5:00 PM" 15
       ["amelia@mergington.edu"; "harper@mergington.edu"]);
    ("Drama Club",
     Activity.mk "Act, direct, and produce plays and performances"
       "Mondays and Wednesdays, 4:00 PM - 5:30 PM" 20
       ["ella@mergington.edu"; "scarlett@mergington.edu"]);
    ("Math Club",
     Activity.mk "Solve challenging problems and participate in math competitions"
       "Tuesdays, 3:30 PM - 4:30 PM" 10
       ["james@mergington.edu"; "benjamin@mergington.edu"]);
    ("Debate Team",
     Activity.mk "Develop public speaking and argumentation skills"
       "Fridays, 4:00 PM - 5:30 PM" 12
       ["charlotte@mergington.edu"; "henry@mergington.edu"])
  ].

Definition initial_state : State :=
  mkState initial_activities ∅ ∅ ∅ ∅ ∅.

(** ** Results of a handler *)

(** [HTTPException] is what the handlers raise; [ValueError] is what
    [list.remove] raises on a missing element. *)
Inductive exception :=
  | HTTPException (status_code : Z) (detail : string)
  | ValueError.

(** The values the handlers return, before FastAPI serialises them. *)
Inductive response :=
  | Redirect (url : string)
  | Message (message : string)
  | ActivitiesMap (m : gmap string Activity.t)
  | StudentsMap (m : gmap string Student.t)
  | CoursesMap (m : gmap string Course.t)
  | EnrollmentList (l : list Enrollment.t)
  | AttendanceList (l : list AttendanceRecord.t)
  | PaymentList (l : list Payment.t).

Inductive outcome :=
  | Return (r : response)
  | Raise (e : exception).

Definition is_raise (o : outcome) : Prop :=
  match o with Raise _ => True | Return _ => False end.

(** ** Python list operations used by the handlers *)

(** [x in l] *)
Fixpoint py_in (x : string) (l : list string) : bool :=
  match l with
  | [] => false
  | y :: l' => if String.eqb y x then true else py_in x l'
  end.

(** [l.append(x)] *)
Definition py_append (l : list string) (x : string) : list string := l ++ [x].

(** [l.remove(x)]: drops the first element equal to [x]; [None] stands for the
    [ValueError] Python raises when there is none. *)
Fixpoint py_remove (x : string) (l : list string) : option (list string) :=
  match l with
  | [] => None
  | y :: l' =>
      if String.eqb y x then Some l'
      else match py_remove x l' with
           | Some r => Some (y :: r)
           | None => None
           end
  end.

(** [list(d.values())].  A Python dictionary lists its values in insertion
    order, which a [gmap] does not record: the view is modelled up to the
    order of its elements. *)
Definition values {V} (m : gmap string V) : list V := (map_to_list m).*2.

(** ** Handlers (lines 122-298) *)

Definition root (st : State) : outcome * State :=
  (Return (Redirect "/static/index.html"), st).

Definition get_activities (st : State) : outcome * State :=
  (Return (ActivitiesMap (activities st)), st).

Definition signup_for_activity (activity_name email : string) (st : State)
  : outcome * State :=
  match activities st !! activity_name with
  | None => (Raise (HTTPException 404 "Activity not found"), st)
  | Some activity =>
      if py_in email (Activity.participants activity) then
        (Raise (HTTPException 400 "Student is already signed up"), st)
      else
        (Return (Message ("Signed up " +:+ email +:+ " for " +:+ activity_name)),
         with_activities
           (<[activity_name :=
                Activity.with_participants activity
                  (py_append (Activity.participants activity) email)]>
              (activities st)) st)
  end.

Definition unregister_from_activity (activity_name email : string) (st : State)
  : outcome * State :=
  match activities st !! activity_name with
  | None => (Raise (HTTPException 404 "Activity not found"), st)
  | Some activity =>
      if negb (py_in email (Activity.participants activity)) then
        (Raise (HTTPException 400 "Student is not signed up for this activity"), st)
      else
        match py_remove email (Activity.participants activity) with
        | None => (Raise ValueError, st)
        | Some l =>
            (Return (Message ("Unregistered " +:+ email +:+ " from " +:+ activity_name)),
             with_activities
               (<[activity_name := Activity.with_participants activity l]>
                  (activities st)) st)
        end
  end.

(** *** Student management *)

Definition get_all_students (st : State) : outcome * State :=
  (Return (StudentsMap (students st)), st).

Definition create_student (student : Student.t) (st : State) : outcome * State :=
  match students st !! Student.email student with
  | Some _ => (Raise (HTTPException 400 "Student already exists"), st)
  | None =>
      (Return (Message ("Student " +:+ Student.name student +:+ " created successfully")),
       with_students (<[Student.email student := student]> (students st)) st)
  end.

Definition update_student (student_email : string) (student : Student.t) (st : State)
  : outcome * State :=
  match students st !! student_email with
  | None => (Raise (HTTPException 404 "Student not found"), st)
  | Some _ =>
      (Return (Message ("Student " +:+ Student.name student +:+ " updated successfully")),
       with_students (<[student_email := student]> (students st)) st)
  end.

Definition delete_student (student_email : string) (st : State) : outcome * State :=
  match students st !! student_email with
  | None => (Raise (HTTPException 404 "Student not found"), st)
  | Some _ =>
      (Return (Message ("Student " +:+ student_email +:+ " deleted successfully")),
       with_students (delete student_email (students st)) st)
  end.

(** *** Course management *)

Definition get_all_courses (st : State) : outcome * State :=
  (Return (CoursesMap (courses st)), st).

Definition create_course (course : Course.t) (st : State) : outcome * State :=
  match courses st !! Course.name course with
  | Some _ => (Raise (HTTPException 400 "Course already exists"), st)
  | None =>
      (Return (Message ("Course " +:+ Course.name course +:+ " created successfully")),
       with_courses (<[Course.name course := course]> (courses st)) st)
  end.

Definition update_course (course_name : string) (course : Course.t) (st : State)
  : outcome * State :=
  match courses st !! course_name with
  | None => (Raise (HTTPException 404 "Course not found"), st)
  | Some _ =>
      (Return (Message ("Course " +:+ Course.name course +:+ " updated successfully")),
       with_courses (<[course_name := course]> (courses st)) st)
  end.

Definition delete_course (course_name : string) (st : State) : outcome * State :=
  match courses st !! course_name with
  | None => (Raise (HTTPException 404 "Course not found"), st)
  | Some _ =>
      (Return (Message ("Course " +:+ course_name +:+ " deleted successfully")),
       with_courses (delete course_name (courses st)) st)
  end.

(** *** Enrollment management *)

(** [f"{student_email}_{course_name}"] *)
Definition enrollment_key (student_email course_name : string) : string :=
  student_email +:+ "_" +:+ course_name.

Definition get_all_enrollments (st : State) : outcome * State :=
  (Return (EnrollmentList (values (enrollments st))), st).

Definition create_enrollment (enrollment : Enrollment.t) (st : State)
  : outcome * State :=
  let enrollment_key :=
    enrollment_key (Enrollment.student_email enrollment)
                   (Enrollment.course_name enrollment) in
  match enrollments st !! enrollment_key with
  | Some _ => (Raise (HTTPException 400 "Student already enrolled in this course"), st)
  | None =>
      (Return (Message ("Student " +:+ Enrollment.student_email enrollment
                        +:+ " enrolled in " +:+ Enrollment.course_name enrollment)),
       with_enrollments (<[enrollment_key := enrollment]> (enrollments st)) st)
  end.

Definition delete_enrollment (student_email course_name : string) (st : State)
  : outcome * State :=
  let enrollment_key := enrollment_key student_email course_name in
  match enrollments st !! enrollment_key with
  | None => (Raise (HTTPException 404 "Enrollment not found"), st)
  | Some _ =>
      (Return (Message ("Student " +:+ student_email +:+ " unenrolled from "
                        +:+ course_name)),
       with_enrollments (delete enrollment_key (enrollments st)) st)
  end.

(** *** Attendance management *)

(** [f"{student_email}_{course_name}_{date}"] *)
Definition attendance_key (r : AttendanceRecord.t) : string :=
  AttendanceRecord.student_email r +:+ "_" +:+ AttendanceRecord.course_name r
  +:+ "_" +:+ AttendanceRecord.date r.

Definition get_all_attendance (st : State) : outcome * State :=
  (Return (AttendanceList (values (attendance st))), st).

Definition record_attendance (attendance_record : AttendanceRecord.t) (st : State)
  : outcome * State :=
  let attendance_key := attendance_key attendance_record in
  (Return (Message ("Attendance recorded for "
                    +:+ AttendanceRecord.student_email attendance_record)),
   with_attendance (<[attendance_key := attendance_record]> (attendance st)) st).

Definition get_student_attendance (student_email : string) (st : State)
  : outcome * State :=
  (Return (AttendanceList
             (filter (λ record, AttendanceRecord.student_email record = student_email)
                     (values (attendance st)))), st).

(** *** Payment management *)

(** [f"{student_email}_{course_name}_{payment_date}"] *)
Definition payment_key (p : Payment.t) : string :=
  Payment.student_email p +:+ "_" +:+ Payment.course_name p
  +:+ "_" +:+ Payment.payment_date p.

Definition get_all_payments (st : State) : outcome * State :=
  (Return (PaymentList (values (payments st))), st).

Definition get_student_payments (student_email : string) (st : State)
  : outcome * State :=
  (Return (PaymentList
             (filter (λ record, Payment.student_email record = student_email)
                     (values (payments st)))), st).

Section App.

(** Python's formatting of a float inside an f-string (the text [str(x)]
    gives), which the message of [create_payment] uses; it is a builtin and
    not part of the application. *)
Variable format_float : float → string.

Definition create_payment (payment : Payment.t) (st : State) : outcome * State :=
  let payment_key := payment_key payment in
  (Return (Message ("Payment of $" +:+ format_float (Payment.amount payment)
                    +:+ " recorded for " +:+ Payment.student_email payment)),
   with_payments (<[payment_key := payment]> (payments st)) st).

(** *** The API as a whole: one request, one handler call *)

Inductive request :=
  | Root
  | GetActivities
  | SignupForActivity (activity_name email : string)
  | UnregisterFromActivity (activity_name email : string)
  | GetAllStudents
  | CreateStudent (student : Student.t)
  | UpdateStudent (student_email : string) (student : Student.t)
  | DeleteStudent (student_email : string)
  | GetAllCourses
  | CreateCourse (course : Course.t)
  | UpdateCourse (course_name : string) (course : Course.t)
  | DeleteCourse (course_name : string)
  | GetAllEnrollments
  | CreateEnrollment (enrollment : Enrollment.t)
  | DeleteEnrollment (student_email course_name : string)
  | GetAllAttendance
  | RecordAttendance (attendance_record : AttendanceRecord.t)
  | GetStudentAttendance (student_email : string)
  | GetAllPayments
  | CreatePayment (payment : Payment.t)
  | GetStudentPayments (student_email : string).

Definition handle (req : request) (st : State) : outcome * State :=
  match req with
  | Root => root st
  | GetActivities => get_activities st
  | SignupForActivity activity_name email =>
      signup_for_activity activity_name email st
  | UnregisterFromActivity activity_name email =>
      unregister_from_activity activity_name email st
  | GetAllStudents => get_all_students st
  | CreateStudent student => create_student student st
  | UpdateStudent student_email student => update_student student_email student st
  | DeleteStudent student_email => delete_student student_email st
  | GetAllCourses => get_all_courses st
  | CreateCourse course => create_course course st
  | UpdateCourse course_name course => update_course course_name course st
  | DeleteCourse course_name => delete_course course_name st
  | GetAllEnrollments => get_all_enrollments st
  | CreateEnrollment enrollment => create_enrollment enrollment st
  | DeleteEnrollment student_email course_name =>
      delete_enrollment student_email course_name st
  | GetAllAttendance => get_all_attendance st
  | RecordAttendance attendance_record => record_attendance attendance_record st
  | GetStudentAttendance student_email => get_student_attendance student_email st
  | GetAllPayments => get_all_payments st
  | CreatePayment payment => create_payment payment st
  | GetStudentPayments student_email => get_student_payments student_email st
  end.

(** The dictionaries after a sequence of requests, served one at a time. *)
Fixpoint run (reqs : list request) (st : State) : State :=
  match reqs with
  | [] => st
  | req :: reqs' => run reqs' (handle req st).2
  end.

End App.

(** ** Measures used in the statements *)

(** [l.count(x)] *)
Fixpoint py_count (x : string) (l : list string) : nat :=
  match l with
  | [] => 0
  | y :: l' => (if String.eqb y x then 1 else 0) + py_count x l'
  end.

(** ** Vocabulary of the statements *)

(** The key under which [create_enrollment] stores an enrollment. *)
Definition enrollment_key_of (e : Enrollment.t) : string :=
  enrollment_key (Enrollment.student_email e) (Enrollment.course_name e).

(** More participants than [max_participants] allows. *)
Definition over_capacity (a : Activity.t) : Prop :=
  (Activity.max_participants a < Z.of_nat (length (Activity.participants a)))%Z.

(** Nine students signing up for the Math Club, which has ten places and two
    participants at start. *)
Definition math_club_signups : list request :=
  SignupForActivity "Math Club" <$>
    ["s1@mergington.edu"; "s2@mergington.edu"; "s3@mergington.edu";
     "s4@mergington.edu"; "s5@mergington.edu"; "s6@mergington.edu";
     "s7@mergington.edu"; "s8@mergington.edu"; "s9@mergington.edu"].

(** Each email occurs at most once in each activity's participant list. *)
Definition no_duplicate_participants (st : State) : Prop :=
  ∀ activity_name a email,
    activities st !! activity_name = Some a →
    py_count email (Activity.participants a) ≤ 1.

(** *** Which dictionary and key a request writes to *)

Inductive mapping :=
  | Activities | Students | Courses | Enrollments | Attendance | Payments.

(** The dictionary and the key a request writes to, if it writes at all. *)
Definition target (req : request) : option (mapping * string) :=
  match req with
  | SignupForActivity activity_name _
  | UnregisterFromActivity activity_name _ => Some (Activities, activity_name)
  | CreateStudent student => Some (Students, Student.email student)
  | UpdateStudent student_email _
  | DeleteStudent student_email => Some (Students, student_email)
  | CreateCourse course => Some (Courses, Course.name course)
  | UpdateCourse course_name _
  | DeleteCourse course_name => Some (Courses, course_name)
  | CreateEnrollment enrollment => Some (Enrollments, enrollment_key_of enrollment)
  | DeleteEnrollment student_email course_name =>
      Some (Enrollments, enrollment_key student_email course_name)
  | RecordAttendance attendance_record =>
      Some (Attendance, attendance_key attendance_record)
  | CreatePayment payment => Some (Payments, payment_key payment)
  | Root | GetActivities | GetAllStudents | GetAllCourses | GetAllEnrollments
  | GetAllAttendance | GetStudentAttendance _ | GetAllPayments
  | GetStudentPayments _ => None
  end.

(** Dictionary [m] is the same in both states. *)
Definition same_mapping (m : mapping) (st st' : State) : Prop :=
  match m with
  | Activities => activities st' = activities st
  | Students => students st' = students st
  | Courses => courses st' = courses st
  | Enrollments => enrollments st' = enrollments st
  | Attendance => attendance st' = attendance st
  | Payments => payments st' = payments st
  end.

(** Dictionary [m] has the same entry, or none, under [k] in both states. *)
Definition same_entry (m : mapping) (k : string) (st st' : State) : Prop :=
  match m with
  | Activities => activities st' !! k = activities st !! k
  | Students => students st' !! k = students st !! k
  | Courses => courses st' !! k = courses st !! k
  | Enrollments => enrollments st' !! k = enrollments st !! k
  | Attendance => attendance st' !! k = attendance st !! k
  | Payments => payments st' !! k = payments st !! k
  end.

Definition frame (t : option (mapping * string)) (st st' : State) : Prop :=
  match t with
  | None => st' = st
  | Some (m, k) =>
      (∀ m', m' ≠ m → same_mapping m' st st')
      ∧ (∀ k', k' ≠ k → same_entry m k' st st')
  end.

(** *** Keys and the records stored under them *)

(** Every student is stored under its own email, every course under its own
    name. *)
Definition students_keyed_by_email (st : State) : Prop :=
  ∀ k s, students st !! k = Some s → Student.email s = k.

Definition courses_keyed_by_name (st : State) : Prop :=
  ∀ k c, courses st !! k = Some c → Course.name c = k.

(** Every enrollment, attendance record and payment is stored under the key
    its handler builds from its fields. *)
Definition composite_keys_match (st : State) : Prop :=
  (∀ k e, enrollments st !! k = Some e → k = enrollment_key_of e)
  ∧ (∀ k r, attendance st !! k = Some r → k = attendance_key r)
  ∧ (∀ k p, payments st !! k = Some p → k = payment_key p).

(** An update request whose body carries another email (name) than the key of
    its path. *)
Definition rekeying_update (req : request) : Prop :=
  match req with
  | UpdateStudent student_email student => Student.email student ≠ student_email
  | UpdateCourse course_name course => Course.name course ≠ course_name
  | _ => False
  end.

(** What a handler may answer: a value, or an [HTTPException] of status 400
    or 404. *)
Definition value_or_400_404 (o : outcome) : Prop :=
  match o with
  | Return _ => True
  | Raise (HTTPException status_code _) => status_code = 400%Z ∨ status_code = 404%Z
  | Raise ValueError => False
  end.

#[global] Instance mapping_eq_dec : EqDecision mapping.
Proof. solve_decision. Defined.

(** Everything of an activity but its participant list. *)
Definition activity_settings (a : Activity.t) : string * string * Z :=
  (Activity.description a, Activity.schedule a, Activity.max_participants a).

(** * Properties *)

(** ** Concrete runs *)

Example py_remove_first_only :
  py_remove "b" ["a"; "b"; "c"; "b"] = Some ["a"; "c"; "b"].
Proof. reflexivity. Qed.

Example py_remove_missing : py_remove "d" ["a"; "b"; "c"] = None.
Proof. reflexivity. Qed.

Example chess_club_signup :
  let first := signup_for_activity "Chess Club" "new@x.edu" initial_state in
  let second := signup_for_activity "Chess Club" "new@x.edu" first.2 in
  first.1 = Return (Message "Signed up new@x.edu for Chess Club")
  ∧ Activity.participants <$> activities first.2 !! "Chess Club"
    = Some ["michael@mergington.edu"; "daniel@mergington.edu"; "new@x.edu"]
  ∧ second = (Raise (HTTPException 400 "Student is already signed up"), first.2).
Proof. vm_compute. done. Qed.

Example chess_club_unregister :
  let res := unregister_from_activity "Chess Club" "michael@mergington.edu"
               initial_state in
  res.1 = Return (Message "Unregistered michael@mergington.edu from Chess Club")
  ∧ Activity.participants <$> activities res.2 !! "Chess Club"
    = Some ["daniel@mergington.edu"]
  ∧ (unregister_from_activity "Chess Club" "michael@mergington.edu" res.2).1
    = Raise (HTTPException 400 "Student is not signed up for this activity").
Proof. vm_compute. done. Qed.

Example unknown_activity :
  signup_for_activity "Knitting" "new@x.edu" initial_state
  = (Raise (HTTPException 404 "Activity not found"), initial_state).
Proof. reflexivity. Qed.

(** ** Python list operations *)

Lemma py_in_true x l : py_in x l = true ↔ x ∈ l.
Proof.
  induction l as [|y l IH]; simpl.
  - split; [discriminate | by intros ?%elem_of_nil].
  - rewrite elem_of_cons. destruct (String.eqb_spec y x) as [->|Hne].
    + split; [by left | done].
    + rewrite IH. split; [by right | by intros [->|?]].
Qed.

Lemma py_in_false x l : py_in x l = false ↔ x ∉ l.
Proof. rewrite <- py_in_true. by destruct (py_in x l). Qed.

Lemma py_count_app x l1 l2 : py_count x (l1 ++ l2) = py_count x l1 + py_count x l2.
Proof. induction l1 as [|y l1 IH]; simpl; [done | rewrite IH; lia]. Qed.

Lemma py_count_absent x l : x ∉ l ↔ py_count x l = 0.
Proof.
  induction l as [|y l IH]; simpl.
  - split; [done | intros _ ?%elem_of_nil; done].
  - rewrite not_elem_of_cons, IH.
    destruct (String.eqb_spec y x) as [->|Hne].
    + split; [by intros [? _] | discriminate].
    + split; [by intros [_ ?] | by intros ?; split; [congruence|]].
Qed.

Lemma py_count_NoDup l : NoDup l ↔ ∀ x, py_count x l ≤ 1.
Proof.
  induction l as [|y l IH]; simpl.
  - split; [intros _ x; lia | constructor].
  - rewrite NoDup_cons, IH, py_count_absent. split.
    + intros [H0 H1] x. specialize (H1 x).
      destruct (String.eqb_spec y x) as [->|Hne]; lia.
    + intros H. split.
      * specialize (H y). rewrite String.eqb_refl in H. lia.
      * intros x. specialize (H x). lia.
Qed.

(** [l.remove(x)] on a list that holds [x] removes the first occurrence and
    nothing else. *)
Lemma py_remove_present x l :
  x ∈ l →
  ∃ l1 l2, l = l1 ++ x :: l2 ∧ (x ∉ l1) ∧ py_remove x l = Some (l1 ++ l2).
Proof.
  induction l as [|y l IH]; [by intros ?%elem_of_nil|].
  intros Hin. simpl. destruct (String.eqb_spec y x) as [->|Hne].
  - exists [], l. split_and!; [done | apply not_elem_of_nil | done].
  - apply elem_of_cons in Hin as [->|Hin]; [done|].
    destruct (IH Hin) as (l1 & l2 & -> & Hl1 & ->).
    exists (y :: l1), l2. split_and!; [done | | done].
    rewrite not_elem_of_cons. split; [congruence | done].
Qed.

Lemma py_remove_absent x l : x ∉ l → py_remove x l = None.
Proof.
  induction l as [|y l IH]; [done|].
  rewrite not_elem_of_cons. intros [Hne Hl]. simpl.
  destruct (String.eqb_spec y x) as [->|_]; [done|]. by rewrite IH.
Qed.

(** ** Activities: signup and unregister *)

Lemma signup_for_activity_unknown activity_name email st :
  activities st !! activity_name = None →
  signup_for_activity activity_name email st
  = (Raise (HTTPException 404 "Activity not found"), st).
Proof. intros H. unfold signup_for_activity. by rewrite H. Qed.

Lemma signup_for_activity_present activity_name email st a :
  activities st !! activity_name = Some a →
  email ∈ Activity.participants a →
  signup_for_activity activity_name email st
  = (Raise (HTTPException 400 "Student is already signed up"), st).
Proof.
  intros H Hin. unfold signup_for_activity. rewrite H.
  apply py_in_true in Hin. by rewrite Hin.
Qed.

Lemma signup_for_activity_fresh activity_name email st a :
  activities st !! activity_name = Some a →
  email ∉ Activity.participants a →
  signup_for_activity activity_name email st
  = (Return (Message ("Signed up " +:+ email +:+ " for " +:+ activity_name)),
     with_activities
       (<[activity_name :=
            Activity.with_participants a (Activity.participants a ++ [email])]>
          (activities st)) st).
Proof.
  intros H Hin. unfold signup_for_activity. rewrite H.
  apply py_in_false in Hin. by rewrite Hin.
Qed.

(** C1: signup raises 404 "Activity not found" exactly when the activity is
    not a key of the activities dictionary; otherwise it raises 400 "Student is
    already signed up" exactly when the email is in the participant list;
    otherwise it returns its message, the email is appended at the end of the
    list and occurs exactly once in it.  When it raises, all six dictionaries
    are what they were. *)
Theorem signup_for_activity_spec (activity_name email : string) (st : State) :
  let r := (signup_for_activity activity_name email st).1 in
  let st' := (signup_for_activity activity_name email st).2 in
  (r = Raise (HTTPException 404 "Activity not found")
   ↔ activities st !! activity_name = None) ∧
  (r = Raise (HTTPException 400 "Student is already signed up")
   ↔ ∃ a, activities st !! activity_name = Some a
          ∧ email ∈ Activity.participants a) ∧
  (r = Return (Message ("Signed up " +:+ email +:+ " for " +:+ activity_name))
   ↔ ∃ a, activities st !! activity_name = Some a
          ∧ email ∉ Activity.participants a) ∧
  (is_raise r → st' = st) ∧
  (∀ a, activities st !! activity_name = Some a →
        email ∉ Activity.participants a →
        st' = with_activities
                (<[activity_name :=
                     Activity.with_participants a
                       (Activity.participants a ++ [email])]> (activities st)) st
        ∧ ∃ a', activities st' !! activity_name = Some a'
                ∧ Activity.participants a' = Activity.participants a ++ [email]
                ∧ py_count email (Activity.participants a') = 1).
Proof.
  intros r st'. subst r st'.
  destruct (activities st !! activity_name) as [a|] eqn:Hact.
  - destruct (decide (email ∈ Activity.participants a)) as [Hin|Hin].
    + rewrite (signup_for_activity_present _ _ _ _ Hact Hin). simpl.
      split_and!.
      * split; discriminate.
      * split; [eauto | done].
      * split; [discriminate | by intros (a0 & [= <-] & Hn)].
      * done.
      * by intros a0 [= <-] Hn.
    + rewrite (signup_for_activity_fresh _ _ _ _ Hact Hin). simpl.
      split_and!.
      * split; discriminate.
      * split; [discriminate | by intros (a0 & [= <-] & Hn)].
      * split; [eauto | done].
      * done.
      * intros a0 [= <-] _. split; [done|].
        eexists. rewrite lookup_insert_eq. split_and!; [done..|].
        simpl. rewrite py_count_app. simpl. rewrite String.eqb_refl.
        apply py_count_absent in Hin. lia.
  - rewrite (signup_for_activity_unknown _ _ _ Hact). simpl.
    split_and!.
    + done.
    + split; [discriminate | by intros (a0 & ? & _)].
    + split; [discriminate | by intros (a0 & ? & _)].
    + done.
    + by intros a0 ?.
Qed.

Lemma unregister_from_activity_unknown activity_name email st :
  activities st !! activity_name = None →
  unregister_from_activity activity_name email st
  = (Raise (HTTPException 404 "Activity not found"), st).
Proof. intros H. unfold unregister_from_activity. by rewrite H. Qed.

Lemma unregister_from_activity_absent activity_name email st a :
  activities st !! activity_name = Some a →
  email ∉ Activity.participants a →
  unregister_from_activity activity_name email st
  = (Raise (HTTPException 400 "Student is not signed up for this activity"), st).
Proof.
  intros H Hin. unfold unregister_from_activity. rewrite H.
  apply py_in_false in Hin. by rewrite Hin.
Qed.

Lemma unregister_from_activity_present activity_name email st a :
  activities st !! activity_name = Some a →
  email ∈ Activity.participants a →
  ∃ l1 l2,
    Activity.participants a = l1 ++ email :: l2 ∧ (email ∉ l1) ∧
    unregister_from_activity activity_name email st
    = (Return (Message ("Unregistered " +:+ email +:+ " from " +:+ activity_name)),
       with_activities
         (<[activity_name := Activity.with_participants a (l1 ++ l2)]>
            (activities st)) st).
Proof.
  intros H Hin. unfold unregister_from_activity. rewrite H.
  destruct (py_remove_present _ _ Hin) as (l1 & l2 & Hl & Hl1 & Hrm).
  exists l1, l2. split_and!; [done..|].
  apply py_in_true in Hin. by rewrite Hin, Hrm.
Qed.

(** C2: unregister raises 404 exactly when the activity is not a key of the
    activities dictionary; otherwise it raises 400 "Student is not signed up
    for this activity" exactly when the email is not in the participant list;
    otherwise it returns its message and the list stored under the activity
    afterwards is the former one without one occurrence of the email (the
    first), every other entry staying where it was relative to the others.
    When it raises, all six dictionaries are what they were. *)
Theorem unregister_from_activity_spec (activity_name email : string) (st : State) :
  let r := (unregister_from_activity activity_name email st).1 in
  let st' := (unregister_from_activity activity_name email st).2 in
  (r = Raise (HTTPException 404 "Activity not found")
   ↔ activities st !! activity_name = None) ∧
  (r = Raise (HTTPException 400 "Student is not signed up for this activity")
   ↔ ∃ a, activities st !! activity_name = Some a
          ∧ email ∉ Activity.participants a) ∧
  (r = Return (Message ("Unregistered " +:+ email +:+ " from " +:+ activity_name))
   ↔ ∃ a, activities st !! activity_name = Some a
          ∧ email ∈ Activity.participants a) ∧
  (is_raise r → st' = st) ∧
  (∀ a, activities st !! activity_name = Some a →
        email ∈ Activity.participants a →
        ∃ l1 l2,
          Activity.participants a = l1 ++ email :: l2 ∧ (email ∉ l1) ∧
          st' = with_activities
                  (<[activity_name := Activity.with_participants a (l1 ++ l2)]>
                     (activities st)) st ∧
          py_count email (Activity.participants a) = S (py_count email (l1 ++ l2)) ∧
          (∀ x, x ≠ email →
                py_count x (l1 ++ l2) = py_count x (Activity.participants a)) ∧
          ∃ a', activities st' !! activity_name = Some a'
                ∧ Activity.participants a' = l1 ++ l2
                ∧ py_count email (Activity.participants a)
                  = S (py_count email (Activity.participants a'))
                ∧ ∀ x, x ≠ email →
                       py_count x (Activity.participants a')
                       = py_count x (Activity.participants a)).
Proof.
  intros r st'. subst r st'.
  destruct (activities st !! activity_name) as [a|] eqn:Hact.
  - destruct (decide (email ∈ Activity.participants a)) as [Hin|Hin].
    + destruct (unregister_from_activity_present _ _ _ _ Hact Hin)
        as (l1 & l2 & Hl & Hl1 & ->). simpl.
      split_and!.
      * split; discriminate.
      * split; [discriminate | by intros (a0 & [= <-] & Hn)].
      * split; [eauto | done].
      * done.
      * assert (Hemail : py_count email (Activity.participants a)
                         = S (py_count email (l1 ++ l2))).
        { rewrite Hl, !py_count_app. simpl. rewrite String.eqb_refl. lia. }
        assert (Hothers : ∀ x, x ≠ email →
                  py_count x (l1 ++ l2) = py_count x (Activity.participants a)).
        { intros x Hx. rewrite Hl, !py_count_app. simpl.
          destruct (String.eqb_spec email x); [done | lia]. }
        intros a0 [= <-] _. exists l1, l2. split_and!; [done..|].
        eexists. rewrite lookup_insert_eq. split_and!; [done | done | | ]; simpl.
        -- exact Hemail.
        -- exact Hothers.
    + rewrite (unregister_from_activity_absent _ _ _ _ Hact Hin). simpl.
      split_and!.
      * split; discriminate.
      * split; [eauto | done].
      * split; [discriminate | by intros (a0 & [= <-] & Hn)].
      * done.
      * by intros a0 [= <-] Hn.
  - rewrite (unregister_from_activity_unknown _ _ _ Hact). simpl.
    split_and!.
    + done.
    + split; [discriminate | by intros (a0 & ? & _)].
    + split; [discriminate | by intros (a0 & ? & _)].
    + done.
    + by intros a0 ?.
Qed.

(** [unregister_from_activity] checks membership before it calls
    [list.remove], so the [ValueError] of the latter never escapes. *)
Lemma unregister_from_activity_no_ValueError activity_name email st :
  (unregister_from_activity activity_name email st).1 ≠ Raise ValueError.
Proof.
  destruct (activities st !! activity_name) as [a|] eqn:Hact.
  - destruct (decide (email ∈ Activity.participants a)) as [Hin|Hin].
    + by destruct (unregister_from_activity_present _ _ _ _ Hact Hin)
        as (l1 & l2 & _ & _ & ->).
    + by rewrite (unregister_from_activity_absent _ _ _ _ Hact Hin).
  - by rewrite (unregister_from_activity_unknown _ _ _ Hact).
Qed.

(** ** No capacity check *)

(** C3: signup never looks at [max_participants].  For an existing activity and
    an email that is not in its list, signup returns its message and appends
    the email whatever the length of the list; when the list was already at or
    over [max_participants], the activity is over capacity afterwards.  Such a
    state is reached from the initial dictionaries by signups alone. *)
Theorem signup_ignores_capacity (format_float : float → string) :
  (∀ st activity_name email a,
     activities st !! activity_name = Some a →
     email ∉ Activity.participants a →
     (signup_for_activity activity_name email st).1
     = Return (Message ("Signed up " +:+ email +:+ " for " +:+ activity_name))
     ∧ ∃ a', activities (signup_for_activity activity_name email st).2
               !! activity_name = Some a'
             ∧ Activity.participants a' = Activity.participants a ++ [email]
             ∧ Activity.max_participants a' = Activity.max_participants a
             ∧ ((Activity.max_participants a
                 ≤ Z.of_nat (length (Activity.participants a)))%Z →
                over_capacity a'))
  ∧ ∃ a, activities (run format_float math_club_signups initial_state)
           !! "Math Club" = Some a
         ∧ over_capacity a.
Proof.
  split.
  - intros st activity_name email a Hact Hin.
    rewrite (signup_for_activity_fresh _ _ _ _ Hact Hin). simpl.
    split; [done|]. eexists. rewrite lookup_insert_eq.
    split_and!; [done..|]. unfold over_capacity. simpl.
    rewrite length_app. simpl. lia.
  - eexists. split; [vm_compute; reflexivity|].
    unfold over_capacity. simpl. lia.
Qed.

Lemma signup_ignores_capacity_witness :
  let st := run (λ _, "0.0") (take 8 math_club_signups) initial_state in
  ∃ a, activities st !! "Math Club" = Some a
       ∧ ("s9@mergington.edu" ∉ Activity.participants a)
       ∧ (Activity.max_participants a
          ≤ Z.of_nat (length (Activity.participants a)))%Z
       ∧ ∃ a', activities (signup_for_activity "Math Club" "s9@mergington.edu" st).2
                 !! "Math Club" = Some a'
               ∧ over_capacity a'.
Proof.
  intros st.
  assert (Hact : activities st !! "Math Club"
                 = Some (Activity.mk
                   "Solve challenging problems and participate in math competitions"
                   "Tuesdays, 3:30 PM - 4:30 PM" 10
                   ["james@mergington.edu"; "benjamin@mergington.edu";
                    "s1@mergington.edu"; "s2@mergington.edu"; "s3@mergington.edu";
                    "s4@mergington.edu"; "s5@mergington.edu"; "s6@mergington.edu";
                    "s7@mergington.edu"; "s8@mergington.edu"]))
    by (vm_compute; reflexivity).
  assert (Hin : "s9@mergington.edu" ∉ Activity.participants
                  (Activity.mk
                   "Solve challenging problems and participate in math competitions"
                   "Tuesdays, 3:30 PM - 4:30 PM" 10
                   ["james@mergington.edu"; "benjamin@mergington.edu";
                    "s1@mergington.edu"; "s2@mergington.edu"; "s3@mergington.edu";
                    "s4@mergington.edu"; "s5@mergington.edu"; "s6@mergington.edu";
                    "s7@mergington.edu"; "s8@mergington.edu"]))
    by (apply py_in_false; vm_compute; reflexivity).
  eexists. split; [exact Hact|]. split; [exact Hin|]. split; [simpl; lia|].
  destruct (proj1 (signup_ignores_capacity (λ _, "0.0")) st _ _ _ Hact Hin)
    as (_ & a' & Ha' & _ & _ & Hover).
  exists a'. split; [exact Ha'|]. apply Hover. simpl. lia.
Defined.

(** ** Enrollments: keys built by concatenation *)

Lemma create_enrollment_fresh e st :
  enrollments st !! enrollment_key_of e = None →
  create_enrollment e st
  = (Return (Message ("Student " +:+ Enrollment.student_email e
                      +:+ " enrolled in " +:+ Enrollment.course_name e)),
     with_enrollments (<[enrollment_key_of e := e]> (enrollments st)) st).
Proof.
  unfold create_enrollment, enrollment_key_of. simpl. by intros ->.
Qed.

Lemma create_enrollment_taken e st :
  is_Some (enrollments st !! enrollment_key_of e) →
  create_enrollment e st
  = (Raise (HTTPException 400 "Student already enrolled in this course"), st).
Proof.
  unfold create_enrollment, enrollment_key_of. simpl. by intros [old ->].
Qed.

Lemma delete_enrollment_present student_email course_name st :
  is_Some (enrollments st !! enrollment_key student_email course_name) →
  delete_enrollment student_email course_name st
  = (Return (Message ("Student " +:+ student_email +:+ " unenrolled from "
                      +:+ course_name)),
     with_enrollments
       (delete (enrollment_key student_email course_name) (enrollments st)) st).
Proof. unfold delete_enrollment. simpl. by intros [old ->]. Qed.

(** C4: the key of an enrollment, [student_email + "_" + course_name], does
    not determine the pair: ("a_b", "c") and ("a", "b_c") have the same key.
    Whenever two enrollments have the same key and the first is created in a
    state that has no record under it, creating the second raises 400 and
    deleting by the second's email and course removes the first's record. *)
Theorem enrollment_key_collision :
  (("a_b", "c") ≠ ("a", "b_c")
   ∧ enrollment_key "a_b" "c" = enrollment_key "a" "b_c")
  ∧ ∀ (st : State) (e1 e2 : Enrollment.t),
      enrollment_key_of e1 = enrollment_key_of e2 →
      enrollments st !! enrollment_key_of e1 = None →
      let st1 := (create_enrollment e1 st).2 in
      let del := delete_enrollment (Enrollment.student_email e2)
                                   (Enrollment.course_name e2) st1 in
      (create_enrollment e1 st).1
      = Return (Message ("Student " +:+ Enrollment.student_email e1
                         +:+ " enrolled in " +:+ Enrollment.course_name e1))
      ∧ enrollments st1 !! enrollment_key_of e1 = Some e1
      ∧ create_enrollment e2 st1
        = (Raise (HTTPException 400 "Student already enrolled in this course"), st1)
      ∧ del.1 = Return (Message ("Student " +:+ Enrollment.student_email e2
                                 +:+ " unenrolled from "
                                 +:+ Enrollment.course_name e2))
      ∧ enrollments del.2 !! enrollment_key_of e1 = None
      ∧ enrollments del.2 = enrollments st.
Proof.
  split; [split; [discriminate | reflexivity]|].
  intros st e1 e2 Hkey Hfresh st1 del. subst del st1.
  rewrite (create_enrollment_fresh _ _ Hfresh). simpl.
  assert (Hsome : is_Some ((<[enrollment_key_of e1 := e1]> (enrollments st))
                             !! enrollment_key_of e2)).
  { rewrite <- Hkey, lookup_insert_eq. eauto. }
  split_and!.
  - done.
  - apply lookup_insert_eq.
  - by apply create_enrollment_taken.
  - by rewrite delete_enrollment_present.
  - rewrite delete_enrollment_present by done. simpl.
    fold (enrollment_key_of e2). rewrite <- Hkey. apply lookup_delete_eq.
  - rewrite delete_enrollment_present by done. simpl.
    fold (enrollment_key_of e2). rewrite <- Hkey. by apply delete_insert_id.
Qed.

Lemma enrollment_key_collision_witness :
  let e1 := Enrollment.mk "a_b" "c" "2024-09-01" in
  let e2 := Enrollment.mk "a" "b_c" "2024-09-02" in
  let st1 := (create_enrollment e1 initial_state).2 in
  (Enrollment.student_email e1, Enrollment.course_name e1)
  ≠ (Enrollment.student_email e2, Enrollment.course_name e2)
  ∧ enrollments st1 !! "a_b_c" = Some e1
  ∧ (create_enrollment e2 st1).1
    = Raise (HTTPException 400 "Student already enrolled in this course")
  ∧ enrollments (delete_enrollment "a" "b_c" st1).2 !! "a_b_c" = None.
Proof.
  intros e1 e2 st1.
  destruct (proj2 enrollment_key_collision initial_state e1 e2
              eq_refl (lookup_empty _))
    as (_ & Hstored & Hconflict & _ & Hgone & _).
  split; [discriminate|].
  split; [exact Hstored|].
  split; [exact (f_equal fst Hconflict) | exact Hgone].
Defined.

(** ** Attendance and payments: posting is an upsert *)

(** C5: [record_attendance] and [create_payment] never raise.  Whatever the
    dictionary holds under the record's key, also a record posted before, the
    call returns its message and the dictionary then holds the new record
    under that key. *)
Theorem attendance_and_payment_upsert (format_float : float → string) :
  (∀ (st : State) (r : AttendanceRecord.t),
     record_attendance r st
     = (Return (Message ("Attendance recorded for "
                         +:+ AttendanceRecord.student_email r)),
        with_attendance (<[attendance_key r := r]> (attendance st)) st)
     ∧ attendance (record_attendance r st).2 !! attendance_key r = Some r)
  ∧ (∀ (st : State) (old new : AttendanceRecord.t),
       attendance_key old = attendance_key new →
       let st1 := (record_attendance old st).2 in
       attendance st1 !! attendance_key new = Some old
       ∧ ¬ is_raise (record_attendance new st1).1
       ∧ attendance (record_attendance new st1).2 !! attendance_key new = Some new)
  ∧ (∀ (st : State) (p : Payment.t),
       create_payment format_float p st
       = (Return (Message ("Payment of $" +:+ format_float (Payment.amount p)
                           +:+ " recorded for " +:+ Payment.student_email p)),
          with_payments (<[payment_key p := p]> (payments st)) st)
       ∧ payments (create_payment format_float p st).2 !! payment_key p = Some p)
  ∧ (∀ (st : State) (old new : Payment.t),
       payment_key old = payment_key new →
       let st1 := (create_payment format_float old st).2 in
       payments st1 !! payment_key new = Some old
       ∧ ¬ is_raise (create_payment format_float new st1).1
       ∧ payments (create_payment format_float new st1).2 !! payment_key new
         = Some new).
Proof.
  split_and!.
  - intros st r. split; [reflexivity|]. simpl. apply lookup_insert_eq.
  - intros st old new Hkey st1. subst st1. simpl. rewrite Hkey.
    split_and!; [apply lookup_insert_eq | tauto | apply lookup_insert_eq].
  - intros st p. split; [reflexivity|]. simpl. apply lookup_insert_eq.
  - intros st old new Hkey st1. subst st1. simpl. rewrite Hkey.
    split_and!; [apply lookup_insert_eq | tauto | apply lookup_insert_eq].
Qed.

Lemma attendance_and_payment_upsert_witness :
  let absent := AttendanceRecord.mk "emma@mergington.edu" "Algebra" "2024-09-02" false in
  let present := AttendanceRecord.mk "emma@mergington.edu" "Algebra" "2024-09-02" true in
  let st1 := (record_attendance absent initial_state).2 in
  let pending := Payment.mk "emma@mergington.edu" 25.5%float "Algebra" "2024-09-02"
                   "pending" in
  let paid := Payment.mk "emma@mergington.edu" 25.5%float "Algebra" "2024-09-02"
                "paid" in
  let st2 := (create_payment (λ _, "25.5") pending initial_state).2 in
  (attendance st1 !! "emma@mergington.edu_Algebra_2024-09-02" = Some absent
   ∧ attendance (record_attendance present st1).2
       !! "emma@mergington.edu_Algebra_2024-09-02" = Some present)
  ∧ (payments st2 !! "emma@mergington.edu_Algebra_2024-09-02" = Some pending
     ∧ payments (create_payment (λ _, "25.5") paid st2).2
         !! "emma@mergington.edu_Algebra_2024-09-02" = Some paid).
Proof.
  intros absent present st1 pending paid st2.
  destruct (attendance_and_payment_upsert (λ _, "25.5"))
    as (_ & Hattendance & _ & Hpayments).
  destruct (Hattendance initial_state absent present eq_refl)
    as (Hold & _ & Hnew).
  destruct (Hpayments initial_state pending paid eq_refl)
    as (Hold' & _ & Hnew').
  split; split; [exact Hold | exact Hnew | exact Hold' | exact Hnew'].
Defined.

(** ** Students *)

Lemma create_student_taken student st :
  is_Some (students st !! Student.email student) →
  create_student student st
  = (Raise (HTTPException 400 "Student already exists"), st).
Proof. unfold create_student. by intros [old ->]. Qed.

Lemma create_student_fresh student st :
  students st !! Student.email student = None →
  create_student student st
  = (Return (Message ("Student " +:+ Student.name student
                      +:+ " created successfully")),
     with_students (<[Student.email student := student]> (students st)) st).
Proof. unfold create_student. by intros ->. Qed.

(** C6: [create_student] raises 400 exactly when the student's email is a key
    of the students dictionary, and then the dictionaries are what they were;
    otherwise it returns its message, the record is stored under the email,
    and the dictionary [get_all_students] returns next holds it there. *)
Theorem create_student_spec (student : Student.t) (st : State) :
  let r := (create_student student st).1 in
  let st' := (create_student student st).2 in
  (r = Raise (HTTPException 400 "Student already exists")
   ↔ is_Some (students st !! Student.email student))
  ∧ (is_raise r → st' = st)
  ∧ (r = Return (Message ("Student " +:+ Student.name student
                          +:+ " created successfully"))
     ↔ students st !! Student.email student = None)
  ∧ (students st !! Student.email student = None →
     st' = with_students (<[Student.email student := student]> (students st)) st
     ∧ ∃ m, get_all_students st' = (Return (StudentsMap m), st')
            ∧ m !! Student.email student = Some student).
Proof.
  intros r st'. subst r st'.
  destruct (students st !! Student.email student) as [old|] eqn:Hst.
  - rewrite create_student_taken by (rewrite Hst; eauto). simpl.
    split_and!; [split; eauto | done | split; discriminate | discriminate].
  - rewrite create_student_fresh by done. simpl.
    split_and!.
    + split; [discriminate | by intros [? ?]].
    + done.
    + done.
    + intros _. split; [done|]. eexists. split; [reflexivity|].
      simpl. apply lookup_insert_eq.
Qed.

(** ** Courses *)

Lemma delete_course_unknown course_name st :
  courses st !! course_name = None →
  delete_course course_name st
  = (Raise (HTTPException 404 "Course not found"), st).
Proof. unfold delete_course. by intros ->. Qed.

Lemma delete_course_present course_name st :
  is_Some (courses st !! course_name) →
  delete_course course_name st
  = (Return (Message ("Course " +:+ course_name +:+ " deleted successfully")),
     with_courses (delete course_name (courses st)) st).
Proof. unfold delete_course. by intros [old ->]. Qed.

(** A name that is not a key of the courses dictionary stays out of it unless
    a course of that name is created. *)
Lemma handle_courses_absent format_float req st k :
  courses st !! k = None →
  (∀ c, req = CreateCourse c → Course.name c ≠ k) →
  courses (handle format_float req st).2 !! k = None.
Proof.
  intros Hk Hreq.
  destruct req; simpl; try done.
  - unfold signup_for_activity.
    destruct (activities st !! activity_name); [|done]. by destruct (py_in _ _).
  - unfold unregister_from_activity.
    destruct (activities st !! activity_name); [|done].
    destruct (negb _); [done|]. by destruct (py_remove _ _).
  - unfold create_student. by destruct (students st !! _).
  - unfold update_student. by destruct (students st !! _).
  - unfold delete_student. by destruct (students st !! _).
  - unfold create_course.
    destruct (courses st !! Course.name course); [done|]. simpl.
    rewrite lookup_insert_ne; [done|]. by apply Hreq.
  - unfold update_course.
    destruct (courses st !! course_name) eqn:Hc; [|done]. simpl.
    rewrite lookup_insert_ne; [done|]. intros ->. congruence.
  - unfold delete_course. destruct (courses st !! course_name); [|done]. simpl.
    apply lookup_delete_None. by right.
  - unfold create_enrollment. simpl. by destruct (enrollments st !! _).
  - unfold delete_enrollment. simpl. by destruct (enrollments st !! _).
Qed.

Lemma run_courses_absent format_float reqs st k :
  courses st !! k = None →
  (∀ c, CreateCourse c ∈ reqs → Course.name c ≠ k) →
  courses (run format_float reqs st) !! k = None.
Proof.
  revert st. induction reqs as [|req reqs IH]; intros st Hk Hreqs; [done|].
  simpl. apply IH.
  - apply handle_courses_absent; [done|].
    intros c ->. apply Hreqs. by left.
  - intros c Hc. apply Hreqs. by right.
Qed.

(** C7: [delete_course] raises 404 exactly when the name is not a key of the
    courses dictionary, and then the dictionaries are what they were;
    otherwise it returns its message, the name is no key of the dictionary
    any more and every other course is as before.  The dictionary that
    [get_all_courses] returns lacks the name right after the call and after
    any further requests that do not create a course of that name again. *)
Theorem delete_course_spec (format_float : float → string)
    (course_name : string) (st : State) :
  let r := (delete_course course_name st).1 in
  let st' := (delete_course course_name st).2 in
  (r = Raise (HTTPException 404 "Course not found")
   ↔ courses st !! course_name = None)
  ∧ (is_raise r → st' = st)
  ∧ (r = Return (Message ("Course " +:+ course_name +:+ " deleted successfully"))
     ↔ is_Some (courses st !! course_name))
  ∧ (is_Some (courses st !! course_name) →
     st' = with_courses (delete course_name (courses st)) st
     ∧ get_all_courses st'
       = (Return (CoursesMap (delete course_name (courses st))), st')
     ∧ courses st' !! course_name = None
     ∧ (∀ k, k ≠ course_name → courses st' !! k = courses st !! k)
     ∧ ∀ reqs,
         (∀ c, CreateCourse c ∈ reqs → Course.name c ≠ course_name) →
         ∃ m, (get_all_courses (run format_float reqs st')).1
              = Return (CoursesMap m)
              ∧ m !! course_name = None).
Proof.
  intros r st'. subst r st'.
  destruct (courses st !! course_name) as [old|] eqn:Hc.
  - rewrite delete_course_present by (rewrite Hc; eauto). simpl.
    split_and!.
    + split; discriminate.
    + done.
    + split; eauto.
    + intros _. split_and!; [done | done | apply lookup_delete_eq | |].
      * intros k Hk. by apply lookup_delete_ne.
      * intros reqs Hreqs. eexists. split; [reflexivity|].
        apply run_courses_absent; [|done]. simpl. apply lookup_delete_eq.
  - rewrite delete_course_unknown by done. simpl.
    split_and!; [done | done | | by intros [? ?]].
    split; [discriminate | by intros [? ?]].
Qed.

(** ** Participant lists hold no email twice *)

Lemma no_duplicate_participants_NoDup st :
  no_duplicate_participants st
  ↔ map_Forall (λ _ a, NoDup (Activity.participants a)) (activities st).
Proof.
  unfold no_duplicate_participants, map_Forall. split.
  - intros H k a Ha. apply py_count_NoDup. intros x. by eapply H.
  - intros H k a x Ha. by eapply py_count_NoDup, H.
Qed.

Lemma no_duplicate_participants_with_activities m st :
  map_Forall (λ _ a, NoDup (Activity.participants a)) m →
  no_duplicate_participants (with_activities m st).
Proof. intros H. by apply no_duplicate_participants_NoDup. Qed.

Lemma no_duplicate_participants_initial : no_duplicate_participants initial_state.
Proof.
  apply no_duplicate_participants_NoDup. simpl. unfold initial_activities.
  apply map_Forall_to_list, Forall_forall. intros [k a] Hka.
  apply elem_of_map_to_list, elem_of_list_to_map_2 in Hka. simpl.
  repeat (apply elem_of_cons in Hka as [[= -> ->]|Hka];
          [simpl; apply (bool_decide_unpack _); vm_compute; exact I|]).
  by apply elem_of_nil in Hka.
Qed.

Lemma signup_for_activity_no_duplicate activity_name email st :
  no_duplicate_participants st →
  no_duplicate_participants (signup_for_activity activity_name email st).2.
Proof.
  intros Hinv.
  destruct (activities st !! activity_name) as [a|] eqn:Hact.
  - destruct (decide (email ∈ Activity.participants a)) as [Hin|Hin].
    + by rewrite (signup_for_activity_present _ _ _ _ Hact Hin).
    + rewrite (signup_for_activity_fresh _ _ _ _ Hact Hin). simpl.
      apply no_duplicate_participants_NoDup in Hinv.
      apply no_duplicate_participants_with_activities, map_Forall_insert_2; [|done].
      simpl. apply NoDup_app. split_and!.
      * by eapply (Hinv activity_name).
      * intros x Hx ->%list_elem_of_singleton. done.
      * apply NoDup_singleton.
  - by rewrite (signup_for_activity_unknown _ _ _ Hact).
Qed.

Lemma unregister_from_activity_no_duplicate activity_name email st :
  no_duplicate_participants st →
  no_duplicate_participants (unregister_from_activity activity_name email st).2.
Proof.
  intros Hinv.
  destruct (activities st !! activity_name) as [a|] eqn:Hact.
  - destruct (decide (email ∈ Activity.participants a)) as [Hin|Hin].
    + destruct (unregister_from_activity_present _ _ _ _ Hact Hin)
        as (l1 & l2 & Hl & _ & ->). simpl.
      apply no_duplicate_participants_NoDup in Hinv.
      apply no_duplicate_participants_with_activities, map_Forall_insert_2; [|done].
      simpl. specialize (Hinv _ _ Hact). simpl in Hinv. rewrite Hl in Hinv.
      apply NoDup_app in Hinv as (Hl1 & Hdisj & [_ Hl2]%NoDup_cons).
      apply NoDup_app. split_and!; [done | | done].
      intros x Hx Hx2. apply (Hdisj x Hx). by right.
    + by rewrite (unregister_from_activity_absent _ _ _ _ Hact Hin).
  - by rewrite (unregister_from_activity_unknown _ _ _ Hact).
Qed.

Lemma handle_no_duplicate format_float req st :
  no_duplicate_participants st →
  no_duplicate_participants (handle format_float req st).2.
Proof.
  intros Hinv. destruct req; simpl; try done.
  - by apply signup_for_activity_no_duplicate.
  - by apply unregister_from_activity_no_duplicate.
  - unfold create_student. by destruct (students st !! Student.email student).
  - unfold update_student. by destruct (students st !! student_email).
  - unfold delete_student. by destruct (students st !! student_email).
  - unfold create_course. by destruct (courses st !! Course.name course).
  - unfold update_course. by destruct (courses st !! course_name).
  - unfold delete_course. by destruct (courses st !! course_name).
  - unfold create_enrollment. simpl. by destruct (enrollments st !! _).
  - unfold delete_enrollment. simpl. by destruct (enrollments st !! _).
Qed.

(** C8: no participant list ever holds an email twice.  The initial lists hold
    none twice, every request keeps it so (signup appends only an email that
    is not in the list, unregister only removes, no other handler writes to
    the activities), and so it holds after every sequence of requests. *)
Theorem participants_never_duplicated (format_float : float → string) :
  no_duplicate_participants initial_state
  ∧ (∀ req st,
       no_duplicate_participants st →
       no_duplicate_participants (handle format_float req st).2)
  ∧ ∀ reqs, no_duplicate_participants (run format_float reqs initial_state).
Proof.
  split_and!.
  - apply no_duplicate_participants_initial.
  - intros req st. apply handle_no_duplicate.
  - intros reqs. generalize no_duplicate_participants_initial.
    generalize initial_state as st.
    induction reqs as [|req reqs IH]; intros st Hinv; [done|].
    simpl. by apply IH, handle_no_duplicate.
Qed.

(** ** Frame: one dictionary, one key *)

Lemma frame_refl t st : frame t st st.
Proof.
  destruct t as [[m k]|]; [|done]. split.
  - by intros [] _.
  - by intros k' _; destruct m.
Qed.

Ltac frame_write :=
  split;
  [ by intros [] ?
  | intros k' Hk'; simpl;
    first [ by apply lookup_insert_ne | by apply lookup_delete_ne ] ].

(** C9: a request writes to at most one of the six dictionaries and there to
    at most the entry under the key it addresses: every other dictionary is
    equal to what it was, and so is every other key of the one written to. *)
Theorem handle_frame (format_float : float → string) (req : request) (st : State) :
  frame (target req) st (handle format_float req st).2.
Proof.
  destruct req; cbn [handle target]; try apply frame_refl.
  - unfold signup_for_activity.
    destruct (activities st !! activity_name); [|apply frame_refl].
    destruct (py_in _ _); [apply frame_refl | frame_write].
  - unfold unregister_from_activity.
    destruct (activities st !! activity_name); [|apply frame_refl].
    destruct (negb _); [apply frame_refl|].
    destruct (py_remove _ _); [frame_write | apply frame_refl].
  - unfold create_student.
    destruct (students st !! Student.email student);
      [apply frame_refl | frame_write].
  - unfold update_student.
    destruct (students st !! student_email); [frame_write | apply frame_refl].
  - unfold delete_student.
    destruct (students st !! student_email); [frame_write | apply frame_refl].
  - unfold create_course.
    destruct (courses st !! Course.name course);
      [apply frame_refl | frame_write].
  - unfold update_course.
    destruct (courses st !! course_name); [frame_write | apply frame_refl].
  - unfold delete_course.
    destruct (courses st !! course_name); [frame_write | apply frame_refl].
  - unfold create_enrollment, enrollment_key_of. cbv zeta.
    destruct (enrollments st !! _); [apply frame_refl | frame_write].
  - unfold delete_enrollment. cbv zeta.
    destruct (enrollments st !! _); [frame_write | apply frame_refl].
  - frame_write.
  - frame_write.
Qed.

(** ** Updating a student under another email *)

Lemma update_student_present student_email student st :
  is_Some (students st !! student_email) →
  update_student student_email student st
  = (Return (Message ("Student " +:+ Student.name student
                      +:+ " updated successfully")),
     with_students (<[student_email := student]> (students st)) st).
Proof. unfold update_student. by intros [old ->]. Qed.

(** C10: [update_student] stores the body under the key of the path.  When
    that key exists and the body's email is another string, the call returns
    its message, the body is the entry under the path key, the entry (or its
    absence) under the body's email is what it was, the keys of the dictionary
    are the same, and the stored record's email is not the key it is stored
    under. *)
Theorem update_student_keeps_path_key
    (student_email : string) (student : Student.t) (st : State) :
  is_Some (students st !! student_email) →
  Student.email student ≠ student_email →
  let st' := (update_student student_email student st).2 in
  (update_student student_email student st).1
  = Return (Message ("Student " +:+ Student.name student
                     +:+ " updated successfully"))
  ∧ students st' !! student_email = Some student
  ∧ students st' !! Student.email student = students st !! Student.email student
  ∧ dom (students st') = dom (students st)
  ∧ ∃ stored, students st' !! student_email = Some stored
              ∧ Student.email stored ≠ student_email.
Proof.
  intros Hkey Hne st'. subst st'.
  rewrite update_student_present by done. simpl.
  split_and!.
  - done.
  - apply lookup_insert_eq.
  - by apply lookup_insert_ne.
  - by apply dom_insert_lookup_L.
  - exists student. split; [apply lookup_insert_eq | done].
Qed.

Lemma update_student_keeps_path_key_witness :
  let ann := Student.mk "Ann" "ann@mergington.edu" "10" None in
  let body := Student.mk "Ann" "ann.lee@mergington.edu" "10" None in
  let st := (create_student ann initial_state).2 in
  let st' := (update_student "ann@mergington.edu" body st).2 in
  students st !! "ann@mergington.edu" = Some ann
  ∧ students st' !! "ann@mergington.edu" = Some body
  ∧ students st' !! "ann.lee@mergington.edu" = None.
Proof.
  intros ann body st st'.
  assert (Hann : students st !! "ann@mergington.edu" = Some ann)
    by (vm_compute; reflexivity).
  assert (Hne : Student.email body ≠ "ann@mergington.edu") by discriminate.
  destruct (update_student_keeps_path_key "ann@mergington.edu" body st
              (ex_intro _ ann Hann) Hne)
    as (_ & Hstored & Hother & _).
  split; [exact Hann|]. split; [exact Hstored|].
  etransitivity; [exact Hother|]. vm_compute. reflexivity.
Defined.

(** * Further properties of the handlers *)

(** ** Students: update and delete *)

Lemma update_student_unknown student_email student st :
  students st !! student_email = None →
  update_student student_email student st
  = (Raise (HTTPException 404 "Student not found"), st).
Proof. unfold update_student. by intros ->. Qed.

Lemma delete_student_unknown student_email st :
  students st !! student_email = None →
  delete_student student_email st
  = (Raise (HTTPException 404 "Student not found"), st).
Proof. unfold delete_student. by intros ->. Qed.

Lemma delete_student_present student_email st :
  is_Some (students st !! student_email) →
  delete_student student_email st
  = (Return (Message ("Student " +:+ student_email +:+ " deleted successfully")),
     with_students (delete student_email (students st)) st).
Proof. unfold delete_student. by intros [old ->]. Qed.

(** X1: [delete_student] raises 404 "Student not found" exactly when the email
    is not a key of the students dictionary, and then nothing changes;
    otherwise it returns its message, the key is gone, every other student is
    as before and the dictionary has one entry less. *)
Theorem delete_student_spec (student_email : string) (st : State) :
  let r := (delete_student student_email st).1 in
  let st' := (delete_student student_email st).2 in
  (r = Raise (HTTPException 404 "Student not found")
   ↔ students st !! student_email = None)
  ∧ (is_raise r → st' = st)
  ∧ (r = Return (Message ("Student " +:+ student_email
                          +:+ " deleted successfully"))
     ↔ is_Some (students st !! student_email))
  ∧ (is_Some (students st !! student_email) →
     st' = with_students (delete student_email (students st)) st
     ∧ students st' !! student_email = None
     ∧ (∀ k, k ≠ student_email → students st' !! k = students st !! k)
     ∧ size (students st) = S (size (students st'))).
Proof.
  intros r st'. subst r st'.
  destruct (students st !! student_email) as [old|] eqn:Hs.
  - rewrite delete_student_present by (rewrite Hs; eauto). simpl.
    split_and!.
    + split; discriminate.
    + done.
    + split; eauto.
    + intros Hsome. split_and!; [done | apply lookup_delete_eq | |].
      * intros k Hk. by apply lookup_delete_ne.
      * rewrite map_size_delete_Some by (rewrite Hs; eauto).
        assert (size (students st) ≠ 0); [|lia].
        apply (map_size_ne_0_lookup_2 _ student_email). rewrite Hs. eauto.
  - rewrite delete_student_unknown by done. simpl.
    split_and!; [done | done | | by intros [? ?]].
    split; [discriminate | by intros [? ?]].
Qed.

(** X2: [update_student] raises 404 "Student not found" exactly when the path
    email is not a key of the students dictionary, and then nothing changes;
    otherwise it returns its message, the body replaces the entry under the
    path email, every other entry is as before and the set of keys is the
    same: an update never adds or removes a student. *)
Theorem update_student_spec (student_email : string) (student : Student.t)
    (st : State) :
  let r := (update_student student_email student st).1 in
  let st' := (update_student student_email student st).2 in
  (r = Raise (HTTPException 404 "Student not found")
   ↔ students st !! student_email = None)
  ∧ (is_raise r → st' = st)
  ∧ (r = Return (Message ("Student " +:+ Student.name student
                          +:+ " updated successfully"))
     ↔ is_Some (students st !! student_email))
  ∧ (is_Some (students st !! student_email) →
     students st' !! student_email = Some student
     ∧ (∀ k, k ≠ student_email → students st' !! k = students st !! k))
  ∧ dom (students st') = dom (students st)
  ∧ size (students st') = size (students st).
Proof.
  intros r st'. subst r st'.
  destruct (students st !! student_email) as [old|] eqn:Hs.
  - rewrite update_student_present by (rewrite Hs; eauto). simpl.
    split_and!.
    + split; discriminate.
    + done.
    + split; eauto.
    + intros _. split; [apply lookup_insert_eq|].
      intros k Hk. by apply lookup_insert_ne.
    + apply dom_insert_lookup_L. rewrite Hs. eauto.
    + apply map_size_insert_Some. rewrite Hs. eauto.
  - rewrite update_student_unknown by done. simpl.
    split_and!; [done | done | | by intros [? ?] | done | done].
    split; [discriminate | by intros [? ?]].
Qed.

(** ** Courses: create and update *)

Lemma create_course_taken course st :
  is_Some (courses st !! Course.name course) →
  create_course course st
  = (Raise (HTTPException 400 "Course already exists"), st).
Proof. unfold create_course. by intros [old ->]. Qed.

Lemma create_course_fresh course st :
  courses st !! Course.name course = None →
  create_course course st
  = (Return (Message ("Course " +:+ Course.name course
                      +:+ " created successfully")),
     with_courses (<[Course.name course := course]> (courses st)) st).
Proof. unfold create_course. by intros ->. Qed.

Lemma update_course_unknown course_name course st :
  courses st !! course_name = None →
  update_course course_name course st
  = (Raise (HTTPException 404 "Course not found"), st).
Proof. unfold update_course. by intros ->. Qed.

Lemma update_course_present course_name course st :
  is_Some (courses st !! course_name) →
  update_course course_name course st
  = (Return (Message ("Course " +:+ Course.name course
                      +:+ " updated successfully")),
     with_courses (<[course_name := course]> (courses st)) st).
Proof. unfold update_course. by intros [old ->]. Qed.

(** X3: [create_course] raises 400 "Course already exists" exactly when the
    course's name is a key of the courses dictionary, and then nothing
    changes: the stored course is not overwritten.  Otherwise it returns its
    message, the course is stored under its name, every other course is as
    before and the dictionary has one entry more. *)
Theorem create_course_spec (course : Course.t) (st : State) :
  let r := (create_course course st).1 in
  let st' := (create_course course st).2 in
  (r = Raise (HTTPException 400 "Course already exists")
   ↔ is_Some (courses st !! Course.name course))
  ∧ (is_raise r → st' = st)
  ∧ (r = Return (Message ("Course " +:+ Course.name course
                          +:+ " created successfully"))
     ↔ courses st !! Course.name course = None)
  ∧ (courses st !! Course.name course = None →
     courses st' !! Course.name course = Some course
     ∧ (∀ k, k ≠ Course.name course → courses st' !! k = courses st !! k)
     ∧ size (courses st') = S (size (courses st))).
Proof.
  intros r st'. subst r st'.
  destruct (courses st !! Course.name course) as [old|] eqn:Hc.
  - rewrite create_course_taken by (rewrite Hc; eauto). simpl.
    split_and!; [split; eauto | done | split; discriminate | discriminate].
  - rewrite create_course_fresh by done. simpl.
    split_and!.
    + split; [discriminate | by intros [? ?]].
    + done.
    + done.
    + intros _. split_and!; [apply lookup_insert_eq | |].
      * intros k Hk. by apply lookup_insert_ne.
      * by apply map_size_insert_None.
Qed.

(** X4: [update_course] raises 404 "Course not found" exactly when the path
    name is not a key of the courses dictionary, and then nothing changes;
    otherwise the body replaces the entry under the path name, whatever name
    the body carries, and the set of keys is the same. *)
Theorem update_course_spec (course_name : string) (course : Course.t)
    (st : State) :
  let r := (update_course course_name course st).1 in
  let st' := (update_course course_name course st).2 in
  (r = Raise (HTTPException 404 "Course not found")
   ↔ courses st !! course_name = None)
  ∧ (is_raise r → st' = st)
  ∧ (r = Return (Message ("Course " +:+ Course.name course
                          +:+ " updated successfully"))
     ↔ is_Some (courses st !! course_name))
  ∧ (is_Some (courses st !! course_name) →
     courses st' !! course_name = Some course
     ∧ (∀ k, k ≠ course_name → courses st' !! k = courses st !! k))
  ∧ dom (courses st') = dom (courses st).
Proof.
  intros r st'. subst r st'.
  destruct (courses st !! course_name) as [old|] eqn:Hc.
  - rewrite update_course_present by (rewrite Hc; eauto). simpl.
    split_and!.
    + split; discriminate.
    + done.
    + split; eauto.
    + intros _. split; [apply lookup_insert_eq|].
      intros k Hk. by apply lookup_insert_ne.
    + apply dom_insert_lookup_L. rewrite Hc. eauto.
  - rewrite update_course_unknown by done. simpl.
    split_and!; [done | done | | by intros [? ?] | done].
    split; [discriminate | by intros [? ?]].
Qed.

(** ** Enrollments: create and delete *)

Lemma delete_enrollment_unknown student_email course_name st :
  enrollments st !! enrollment_key student_email course_name = None →
  delete_enrollment student_email course_name st
  = (Raise (HTTPException 404 "Enrollment not found"), st).
Proof. unfold delete_enrollment. simpl. by intros ->. Qed.

(** X5: [create_enrollment] raises 400 "Student already enrolled in this
    course" exactly when the dictionary has an entry under the enrollment's
    key, and then nothing changes; otherwise the enrollment is stored under
    that key, every other entry is as before and the dictionary has one entry
    more.  The key being free is the only condition: whether the student and
    the course exist is not looked at. *)
Theorem create_enrollment_spec (enrollment : Enrollment.t) (st : State) :
  let r := (create_enrollment enrollment st).1 in
  let st' := (create_enrollment enrollment st).2 in
  (r = Raise (HTTPException 400 "Student already enrolled in this course")
   ↔ is_Some (enrollments st !! enrollment_key_of enrollment))
  ∧ (is_raise r → st' = st)
  ∧ (r = Return (Message ("Student " +:+ Enrollment.student_email enrollment
                          +:+ " enrolled in "
                          +:+ Enrollment.course_name enrollment))
     ↔ enrollments st !! enrollment_key_of enrollment = None)
  ∧ (enrollments st !! enrollment_key_of enrollment = None →
     enrollments st' !! enrollment_key_of enrollment = Some enrollment
     ∧ (∀ k, k ≠ enrollment_key_of enrollment →
             enrollments st' !! k = enrollments st !! k)
     ∧ size (enrollments st') = S (size (enrollments st))).
Proof.
  intros r st'. subst r st'.
  destruct (enrollments st !! enrollment_key_of enrollment) as [old|] eqn:He.
  - rewrite create_enrollment_taken by (rewrite He; eauto). simpl.
    split_and!; [split; eauto | done | split; discriminate | discriminate].
  - rewrite create_enrollment_fresh by done. simpl.
    split_and!.
    + split; [discriminate | by intros [? ?]].
    + done.
    + done.
    + intros _. split_and!; [apply lookup_insert_eq | |].
      * intros k Hk. by apply lookup_insert_ne.
      * by apply map_size_insert_None.
Qed.

(** X6: [delete_enrollment] raises 404 "Enrollment not found" exactly when the
    dictionary has no entry under the key built from the email and the course
    name, and then nothing changes; otherwise that entry is removed and every
    other one is as before. *)
Theorem delete_enrollment_spec (student_email course_name : string) (st : State) :
  let key := enrollment_key student_email course_name in
  let r := (delete_enrollment student_email course_name st).1 in
  let st' := (delete_enrollment student_email course_name st).2 in
  (r = Raise (HTTPException 404 "Enrollment not found")
   ↔ enrollments st !! key = None)
  ∧ (is_raise r → st' = st)
  ∧ (r = Return (Message ("Student " +:+ student_email +:+ " unenrolled from "
                          +:+ course_name))
     ↔ is_Some (enrollments st !! key))
  ∧ (is_Some (enrollments st !! key) →
     enrollments st' !! key = None
     ∧ (∀ k, k ≠ key → enrollments st' !! k = enrollments st !! k)
     ∧ size (enrollments st) = S (size (enrollments st'))).
Proof.
  intros key r st'. subst key r st'.
  destruct (enrollments st !! enrollment_key student_email course_name)
    as [old|] eqn:He.
  - rewrite delete_enrollment_present by (rewrite He; eauto). simpl.
    split_and!.
    + split; discriminate.
    + done.
    + split; eauto.
    + intros Hsome. split_and!; [apply lookup_delete_eq | |].
      * intros k Hk. by apply lookup_delete_ne.
      * rewrite map_size_delete_Some by (rewrite He; eauto).
        assert (size (enrollments st) ≠ 0); [|lia].
        apply (map_size_ne_0_lookup_2 _ (enrollment_key student_email course_name)).
        rewrite He. eauto.
  - rewrite delete_enrollment_unknown by done. simpl.
    split_and!; [done | done | | by intros [? ?]].
    split; [discriminate | by intros [? ?]].
Qed.

(** ** Round trips *)

Lemma with_students_id st : with_students (students st) st = st.
Proof. by destruct st. Qed.

Lemma with_courses_id st : with_courses (courses st) st = st.
Proof. by destruct st. Qed.

Lemma with_activities_id st : with_activities (activities st) st = st.
Proof. by destruct st. Qed.

Lemma with_participants_id a : Activity.with_participants a (Activity.participants a) = a.
Proof. by destruct a. Qed.

Lemma py_remove_appended x l : x ∉ l → py_remove x (l ++ [x]) = Some l.
Proof.
  induction l as [|y l IH]; simpl.
  - intros _. by rewrite String.eqb_refl.
  - rewrite not_elem_of_cons. intros [Hne Hl].
    destruct (String.eqb_spec y x) as [->|_]; [done|]. by rewrite IH.
Qed.

(** X7: creating a student whose email is free and then deleting that email
    gives back the dictionaries as they were before the two calls; deleting a
    student that is stored under its own email and creating it again does the
    same. *)
Theorem create_delete_student_round_trip (student : Student.t) (st : State) :
  (students st !! Student.email student = None →
   (create_student student st).1
   = Return (Message ("Student " +:+ Student.name student
                      +:+ " created successfully"))
   ∧ delete_student (Student.email student) (create_student student st).2
     = (Return (Message ("Student " +:+ Student.email student
                         +:+ " deleted successfully")), st))
  ∧ (students st !! Student.email student = Some student →
     (delete_student (Student.email student) st).1
     = Return (Message ("Student " +:+ Student.email student
                        +:+ " deleted successfully"))
     ∧ create_student student (delete_student (Student.email student) st).2
       = (Return (Message ("Student " +:+ Student.name student
                           +:+ " created successfully")), st)).
Proof.
  split.
  - intros Hfree. rewrite create_student_fresh by done. simpl. split; [done|].
    rewrite delete_student_present by (simpl; rewrite lookup_insert_eq; eauto).
    f_equal. unfold with_students at 1. simpl.
    rewrite delete_insert_id by done. by destruct st.
  - intros Hstored.
    rewrite delete_student_present by (rewrite Hstored; eauto). simpl.
    split; [done|].
    rewrite create_student_fresh by (simpl; apply lookup_delete_eq).
    f_equal. unfold with_students at 1. simpl.
    rewrite insert_delete_id by done. by destruct st.
Qed.

Lemma create_delete_student_round_trip_witness :
  let ann := Student.mk "Ann" "ann@mergington.edu" "10" None in
  delete_student "ann@mergington.edu" (create_student ann initial_state).2
  = (Return (Message "Student ann@mergington.edu deleted successfully"),
     initial_state).
Proof.
  intros ann.
  exact (proj2 (proj1 (create_delete_student_round_trip ann initial_state)
                  (lookup_empty _))).
Defined.

(** X8: the same round trips for courses: [create_course] on a free name
    followed by [delete_course] of that name, and [delete_course] of a course
    stored under its own name followed by [create_course] of it, both end in
    the dictionaries they started from. *)
Theorem create_delete_course_round_trip (course : Course.t) (st : State) :
  (courses st !! Course.name course = None →
   (create_course course st).1
   = Return (Message ("Course " +:+ Course.name course
                      +:+ " created successfully"))
   ∧ delete_course (Course.name course) (create_course course st).2
     = (Return (Message ("Course " +:+ Course.name course
                         +:+ " deleted successfully")), st))
  ∧ (courses st !! Course.name course = Some course →
     (delete_course (Course.name course) st).1
     = Return (Message ("Course " +:+ Course.name course
                        +:+ " deleted successfully"))
     ∧ create_course course (delete_course (Course.name course) st).2
       = (Return (Message ("Course " +:+ Course.name course
                           +:+ " created successfully")), st)).
Proof.
  split.
  - intros Hfree. rewrite create_course_fresh by done. simpl. split; [done|].
    rewrite delete_course_present by (simpl; rewrite lookup_insert_eq; eauto).
    f_equal. unfold with_courses at 1. simpl.
    rewrite delete_insert_id by done. by destruct st.
  - intros Hstored.
    rewrite delete_course_present by (rewrite Hstored; eauto). simpl.
    split; [done|].
    rewrite create_course_fresh by (simpl; apply lookup_delete_eq).
    f_equal. unfold with_courses at 1. simpl.
    rewrite insert_delete_id by done. by destruct st.
Qed.

Lemma create_delete_course_round_trip_witness :
  let algebra := Course.mk "Algebra" "Linear equations" "Mondays" 25 (Some "Ms. Kim") in
  delete_course "Algebra" (create_course algebra initial_state).2
  = (Return (Message "Course Algebra deleted successfully"), initial_state).
Proof.
  intros algebra.
  exact (proj2 (proj1 (create_delete_course_round_trip algebra initial_state)
                  (lookup_empty _))).
Defined.

(** X9: signing up an email that is not in the list of an existing activity
    and unregistering it right after gives back the dictionaries as they
    were, participant order included. *)
Theorem signup_unregister_round_trip
    (activity_name email : string) (st : State) (a : Activity.t) :
  activities st !! activity_name = Some a →
  email ∉ Activity.participants a →
  unregister_from_activity activity_name email
    (signup_for_activity activity_name email st).2
  = (Return (Message ("Unregistered " +:+ email +:+ " from " +:+ activity_name)),
     st).
Proof.
  intros Hact Hin.
  rewrite (signup_for_activity_fresh _ _ _ _ Hact Hin). simpl.
  unfold unregister_from_activity. simpl. rewrite lookup_insert_eq. simpl.
  assert (Hnow : py_in email (Activity.participants a ++ [email]) = true).
  { apply py_in_true, elem_of_app. right. by left. }
  rewrite Hnow, (py_remove_appended _ _ Hin). simpl. f_equal.
  unfold Activity.with_participants at 1. simpl.
  fold (Activity.with_participants a (Activity.participants a)).
  rewrite with_participants_id, insert_insert_eq, insert_id by done.
  by destruct st.
Qed.

Lemma signup_unregister_round_trip_witness :
  unregister_from_activity "Chess Club" "new@x.edu"
    (signup_for_activity "Chess Club" "new@x.edu" initial_state).2
  = (Return (Message "Unregistered new@x.edu from Chess Club"), initial_state).
Proof.
  refine (signup_unregister_round_trip "Chess Club" "new@x.edu" initial_state
            (Activity.mk "Learn strategies and compete in chess tournaments"
               "Fridays, 3:30 PM - 5:00 PM" 12
               ["michael@mergington.edu"; "daniel@mergington.edu"]) _ _).
  - vm_compute. reflexivity.
  - apply py_in_false. vm_compute. reflexivity.
Defined.

Lemma py_remove_middle x l1 l2 :
  x ∉ l1 → py_remove x (l1 ++ x :: l2) = Some (l1 ++ l2).
Proof.
  induction l1 as [|y l1 IH]; simpl.
  - intros _. by rewrite String.eqb_refl.
  - rewrite not_elem_of_cons. intros [Hne Hl].
    destruct (String.eqb_spec y x) as [->|_]; [done|]. by rewrite IH.
Qed.



(** ** Lookups by student *)

Lemma elem_of_values {V} (m : gmap string V) (v : V) :
  v ∈ values m ↔ ∃ k, m !! k = Some v.
Proof.
  unfold values. rewrite list_elem_of_fmap. split.
  - intros ([k v'] & -> & Hkv). exists k. by apply elem_of_map_to_list.
  - intros (k & Hk). exists (k, v). split; [done|]. by apply elem_of_map_to_list.
Qed.

Lemma length_values {V} (m : gmap string V) : length (values m) = size m.
Proof. unfold values. by rewrite length_fmap, length_map_to_list. Qed.

(** X11: [get_student_attendance] never raises and changes nothing; the list
    it returns holds exactly the stored attendance records whose
    [student_email] field is the given email, whatever key they are stored
    under, and an email without records gets the empty list. *)
Theorem get_student_attendance_spec (student_email : string) (st : State) :
  ∃ l, get_student_attendance student_email st = (Return (AttendanceList l), st)
       ∧ (∀ r, r ∈ l ↔ AttendanceRecord.student_email r = student_email
                        ∧ ∃ k, attendance st !! k = Some r)
       ∧ length l ≤ size (attendance st)
       ∧ ((∀ k r, attendance st !! k = Some r →
                  AttendanceRecord.student_email r ≠ student_email) → l = []).
Proof.
  eexists. split; [reflexivity|]. split_and!.
  - intros r. by rewrite list_elem_of_filter, elem_of_values.
  - rewrite <- length_values. apply length_filter.
  - intros Hnone. apply elem_of_nil_inv. intros r.
    rewrite list_elem_of_filter, elem_of_values. intros [Hr [k Hk]].
    by apply (Hnone k r).
Qed.

(** X12: [get_student_payments] never raises and changes nothing; the list it
    returns holds exactly the stored payments whose [student_email] field is
    the given email, and an email without payments gets the empty list. *)
Theorem get_student_payments_spec (student_email : string) (st : State) :
  ∃ l, get_student_payments student_email st = (Return (PaymentList l), st)
       ∧ (∀ p, p ∈ l ↔ Payment.student_email p = student_email
                        ∧ ∃ k, payments st !! k = Some p)
       ∧ length l ≤ size (payments st)
       ∧ ((∀ k p, payments st !! k = Some p →
                  Payment.student_email p ≠ student_email) → l = []).
Proof.
  eexists. split; [reflexivity|]. split_and!.
  - intros p. by rewrite list_elem_of_filter, elem_of_values.
  - rewrite <- length_values. apply length_filter.
  - intros Hnone. apply elem_of_nil_inv. intros p.
    rewrite list_elem_of_filter, elem_of_values. intros [Hp [k Hk]].
    by apply (Hnone k p).
Qed.

(** ** What holds after every sequence of requests *)

(** A property kept by every request of a kind is kept by every sequence of
    requests of that kind. *)
Lemma run_invariant format_float (P : State → Prop) (Q : request → Prop) :
  (∀ req st, Q req → P st → P (handle format_float req st).2) →
  ∀ reqs st, Forall Q reqs → P st → P (run format_float reqs st).
Proof.
  intros Hstep reqs. induction reqs as [|req reqs IH]; intros st HQ HP; [done|].
  apply Forall_cons in HQ as [Hreq Hreqs]. simpl. by apply IH, Hstep.
Qed.

Ltac unfold_handlers :=
  unfold root, get_activities, signup_for_activity, unregister_from_activity,
    get_all_students, create_student, update_student, delete_student,
    get_all_courses, create_course, update_course, delete_course,
    get_all_enrollments, create_enrollment, delete_enrollment,
    get_all_attendance, record_attendance, get_student_attendance,
    get_all_payments, create_payment, get_student_payments;
  cbv zeta.

Ltac handler_cases req :=
  destruct req; cbn [handle]; unfold_handlers; repeat case_match; simpl.

(** X13: every enrollment, attendance record and payment is stored under the
    key built from its own fields.  This holds for the initial dictionaries,
    every request keeps it, and so it holds after every sequence of
    requests. *)
Theorem composite_keys_always_match (format_float : float → string) :
  composite_keys_match initial_state
  ∧ (∀ req st,
       composite_keys_match st →
       composite_keys_match (handle format_float req st).2)
  ∧ ∀ reqs, composite_keys_match (run format_float reqs initial_state).
Proof.
  assert (Hinit : composite_keys_match initial_state).
  { split_and!; intros k x; simpl; by rewrite lookup_empty. }
  assert (Hstep : ∀ req st,
             composite_keys_match st →
             composite_keys_match (handle format_float req st).2).
  { intros req st (He & Ha & Hp).
    handler_cases req; try (by split_and!); split_and!; simpl; try done.
    - intros k e [[<- <-]|[_ Hk]]%lookup_insert_Some; [done | by apply He].
    - intros k e [_ Hk]%lookup_delete_Some. by apply He.
    - intros k r [[<- <-]|[_ Hk]]%lookup_insert_Some; [done | by apply Ha].
    - intros k p [[<- <-]|[_ Hk]]%lookup_insert_Some; [done | by apply Hp]. }
  split_and!; [done | done |].
  intros reqs.
  apply (run_invariant format_float composite_keys_match (λ _, True));
    [by intros req st _; apply Hstep | by apply Forall_true | done].
Qed.

(** X14: students are stored under their own email and courses under their own
    name as long as no update carries another email or name in its body than
    in its path: every request that is not such an update keeps both
    properties, and they hold after every sequence of such requests from the
    initial dictionaries. *)
Theorem keyed_by_own_field_without_rekeying (format_float : float → string) :
  (∀ req st,
     ¬ rekeying_update req →
     students_keyed_by_email st ∧ courses_keyed_by_name st →
     students_keyed_by_email (handle format_float req st).2
     ∧ courses_keyed_by_name (handle format_float req st).2)
  ∧ ∀ reqs,
      Forall (λ req, ¬ rekeying_update req) reqs →
      students_keyed_by_email (run format_float reqs initial_state)
      ∧ courses_keyed_by_name (run format_float reqs initial_state).
Proof.
  assert (Hstep : ∀ req st,
             ¬ rekeying_update req →
             students_keyed_by_email st ∧ courses_keyed_by_name st →
             students_keyed_by_email (handle format_float req st).2
             ∧ courses_keyed_by_name (handle format_float req st).2).
  { intros req st Hreq [Hs Hc]. unfold rekeying_update in Hreq.
    unfold students_keyed_by_email, courses_keyed_by_name in *.
    handler_cases req; try (by split); split; simpl; try done.
    - intros k s [[<- <-]|[_ Hk]]%lookup_insert_Some; [done | by apply Hs].
    - intros k s [[<- <-]|[_ Hk]]%lookup_insert_Some; [|by apply Hs].
      by destruct (decide (Student.email student = student_email)).
    - intros k s [_ Hk]%lookup_delete_Some. by apply Hs.
    - intros k c [[<- <-]|[_ Hk]]%lookup_insert_Some; [done | by apply Hc].
    - intros k c [[<- <-]|[_ Hk]]%lookup_insert_Some; [|by apply Hc].
      by destruct (decide (Course.name course = course_name)).
    - intros k c [_ Hk]%lookup_delete_Some. by apply Hc. }
  split; [done|].
  intros reqs Hreqs.
  apply (run_invariant format_float
           (λ st, students_keyed_by_email st ∧ courses_keyed_by_name st)
           (λ req, ¬ rekeying_update req)); [done | done |].
  split; intros k x; simpl; by rewrite lookup_empty.
Qed.

Lemma handle_activity_settings format_float req st activity_name :
  activity_settings <$> activities (handle format_float req st).2 !! activity_name
  = activity_settings <$> activities st !! activity_name.
Proof.
  assert (Hwrite : ∀ name a l,
             activities st !! name = Some a →
             activity_settings
               <$> <[name := Activity.with_participants a l]> (activities st)
                     !! activity_name
             = activity_settings <$> activities st !! activity_name).
  { intros name a l Ha. destruct (decide (name = activity_name)) as [->|Hne].
    - by rewrite lookup_insert_eq, Ha.
    - by rewrite lookup_insert_ne. }
  handler_cases req; try done; by apply Hwrite.
Qed.

(** X15: no request adds or removes an activity or changes its description,
    schedule or [max_participants]: after every sequence of requests, from
    any state, the activities dictionary has the same keys and every activity
    the same settings; only participant lists change. *)
Theorem activities_are_fixed (format_float : float → string)
    (reqs : list request) (st : State) :
  (∀ activity_name,
     activity_settings <$> activities (run format_float reqs st) !! activity_name
     = activity_settings <$> activities st !! activity_name)
  ∧ dom (activities (run format_float reqs st)) = dom (activities st).
Proof.
  assert (Hsettings : ∀ activity_name,
             activity_settings <$> activities (run format_float reqs st)
                                     !! activity_name
             = activity_settings <$> activities st !! activity_name).
  { revert st. induction reqs as [|req reqs IH]; intros st activity_name; [done|].
    simpl. rewrite IH. apply handle_activity_settings. }
  split; [done|].
  apply set_eq. intros activity_name. rewrite !elem_of_dom.
  rewrite <- (fmap_is_Some activity_settings (activities (run _ _ _) !! _)).
  rewrite <- (fmap_is_Some activity_settings (activities st !! _)).
  by rewrite Hsettings.
Qed.

(** ** Errors *)

(** X16: whatever the request and the state, a handler either returns a value
    or raises an [HTTPException] with status 400 or 404; in particular the
    [ValueError] of [list.remove] never escapes [unregister_from_activity]. *)
Theorem handle_value_or_400_404 (format_float : float → string)
    (req : request) (st : State) :
  value_or_400_404 (handle format_float req st).1.
Proof.
  destruct req; cbn [handle];
    try (unfold_handlers; repeat case_match; simpl; tauto).
  destruct (activities st !! activity_name) as [a|] eqn:Hact.
  - destruct (decide (email ∈ Activity.participants a)) as [Hin|Hin].
    + by destruct (unregister_from_activity_present _ _ _ _ Hact Hin)
        as (l1 & l2 & _ & _ & ->).
    + rewrite (unregister_from_activity_absent _ _ _ _ Hact Hin). simpl. tauto.
  - rewrite (unregister_from_activity_unknown _ _ _ Hact). simpl. tauto.
Qed.

(** X17: a request that raises changes nothing: whenever a handler raises, all
    six dictionaries are what they were before the call. *)
Theorem handle_raise_keeps_state (format_float : float → string)
    (req : request) (st : State) :
  is_raise (handle format_float req st).1 →
  (handle format_float req st).2 = st.
Proof. handler_cases req; done. Qed.

Lemma handle_raise_keeps_state_witness :
  (handle (λ _, "0.0") (SignupForActivity "Chess Club" "michael@mergington.edu")
     initial_state).2 = initial_state.
Proof.
  apply handle_raise_keeps_state. vm_compute. exact I.
Defined.

(** ** Repeating a request *)

(** X18: a second create of the same student, course or enrollment right
    after the first always raises 400 and changes nothing, whether the first
    created the record or was itself refused. *)
Theorem create_twice_conflicts (st : State) :
  (∀ student,
     create_student student (create_student student st).2
     = (Raise (HTTPException 400 "Student already exists"),
        (create_student student st).2))
  ∧ (∀ course,
       create_course course (create_course course st).2
       = (Raise (HTTPException 400 "Course already exists"),
          (create_course course st).2))
  ∧ (∀ enrollment,
       create_enrollment enrollment (create_enrollment enrollment st).2
       = (Raise (HTTPException 400 "Student already enrolled in this course"),
          (create_enrollment enrollment st).2)).
Proof.
  split_and!.
  - intros student. apply create_student_taken.
    destruct (students st !! Student.email student) as [old|] eqn:Hs.
    + rewrite create_student_taken by (rewrite Hs; eauto). simpl.
      rewrite Hs. eauto.
    + rewrite create_student_fresh by done. simpl.
      rewrite lookup_insert_eq. eauto.
  - intros course. apply create_course_taken.
    destruct (courses st !! Course.name course) as [old|] eqn:Hc.
    + rewrite create_course_taken by (rewrite Hc; eauto). simpl.
      rewrite Hc. eauto.
    + rewrite create_course_fresh by done. simpl.
      rewrite lookup_insert_eq. eauto.
  - intros enrollment. apply create_enrollment_taken.
    destruct (enrollments st !! enrollment_key_of enrollment) as [old|] eqn:He.
    + rewrite create_enrollment_taken by (rewrite He; eauto). simpl.
      rewrite He. eauto.
    + rewrite create_enrollment_fresh by done. simpl.
      rewrite lookup_insert_eq. eauto.
Qed.

(** X19: a second delete of the same student, course or enrollment right
    after the first always raises 404 and changes nothing, whether the first
    removed the record or was itself refused. *)
Theorem delete_twice_not_found (st : State) :
  (∀ student_email,
     delete_student student_email (delete_student student_email st).2
     = (Raise (HTTPException 404 "Student not found"),
        (delete_student student_email st).2))
  ∧ (∀ course_name,
       delete_course course_name (delete_course course_name st).2
       = (Raise (HTTPException 404 "Course not found"),
          (delete_course course_name st).2))
  ∧ (∀ student_email course_name,
       delete_enrollment student_email course_name
         (delete_enrollment student_email course_name st).2
       = (Raise (HTTPException 404 "Enrollment not found"),
          (delete_enrollment student_email course_name st).2)).
Proof.
  split_and!.
  - intros student_email. apply delete_student_unknown.
    destruct (students st !! student_email) as [old|] eqn:Hs.
    + rewrite delete_student_present by (rewrite Hs; eauto). simpl.
      apply lookup_delete_eq.
    + by rewrite delete_student_unknown.
  - intros course_name. apply delete_course_unknown.
    destruct (courses st !! course_name) as [old|] eqn:Hc.
    + rewrite delete_course_present by (rewrite Hc; eauto). simpl.
      apply lookup_delete_eq.
    + by rewrite delete_course_unknown.
  - intros student_email course_name. apply delete_enrollment_unknown.
    destruct (enrollments st !! enrollment_key student_email course_name)
      as [old|] eqn:He.
    + rewrite delete_enrollment_present by (rewrite He; eauto). simpl.
      apply lookup_delete_eq.
    + by rewrite delete_enrollment_unknown.
Qed.

(** X20: a second signup of the same email for the same activity right after
    the first always raises and changes nothing: 400 "Student is already signed
    up" when the activity exists, 404 when it does not.  Signing up is thus
    idempotent on the dictionaries. *)
Theorem signup_twice_conflicts (activity_name email : string) (st : State) :
  let st1 := (signup_for_activity activity_name email st).2 in
  (is_Some (activities st !! activity_name) →
   signup_for_activity activity_name email st1
   = (Raise (HTTPException 400 "Student is already signed up"), st1))
  ∧ (activities st !! activity_name = None →
     signup_for_activity activity_name email st1
     = (Raise (HTTPException 404 "Activity not found"), st1))
  ∧ (signup_for_activity activity_name email st1).2 = st1.
Proof.
  intros st1. subst st1.
  destruct (activities st !! activity_name) as [a|] eqn:Hact.
  - assert (Hsecond :
      signup_for_activity activity_name email
        (signup_for_activity activity_name email st).2
      = (Raise (HTTPException 400 "Student is already signed up"),
         (signup_for_activity activity_name email st).2)).
    { destruct (decide (email ∈ Activity.participants a)) as [Hin|Hin].
      - rewrite (signup_for_activity_present _ _ _ _ Hact Hin). simpl.
        by apply (signup_for_activity_present _ _ _ a).
      - rewrite (signup_for_activity_fresh _ _ _ _ Hact Hin). simpl.
        eapply signup_for_activity_present; [simpl; apply lookup_insert_eq|].
        simpl. apply elem_of_app. right. by left. }
    split_and!; [done | discriminate | by rewrite Hsecond].
  - rewrite (signup_for_activity_unknown _ _ _ Hact). simpl.
    rewrite (signup_for_activity_unknown _ _ _ Hact).
    split_and!; [by intros [? ?] | done | done].
Qed.

(** The result of [unregister_from_activity] when the place of the first
    occurrence of the email is known. *)
Lemma unregister_from_activity_at activity_name email st a l1 l2 :
  activities st !! activity_name = Some a →
  Activity.participants a = l1 ++ email :: l2 →
  email ∉ l1 →
  unregister_from_activity activity_name email st
  = (Return (Message ("Unregistered " +:+ email +:+ " from " +:+ activity_name)),
     with_activities
       (<[activity_name := Activity.with_participants a (l1 ++ l2)]>
          (activities st)) st).
Proof.
  intros Hact Hl Hl1. unfold unregister_from_activity. rewrite Hact.
  assert (Hin : py_in email (Activity.participants a) = true).
  { apply py_in_true. rewrite Hl. apply elem_of_app. right. by left. }
  by rewrite Hin, Hl, (py_remove_middle _ _ _ Hl1).
Qed.

(** X21: unregistering an email that is in the list of an existing activity
    leaves, under that activity, the list without the first occurrence of the
    email.  A second unregister of the same email right after raises 400
    "Student is not signed up for this activity" and changes nothing when the
    list held the email once.  When the list held it twice or more, which no
    sequence of requests produces, the second call succeeds as well and the
    stored list then lacks the first two occurrences, the later ones and all
    other participants staying in place. *)
Theorem unregister_twice (activity_name email : string) (st : State)
    (a : Activity.t) :
  activities st !! activity_name = Some a →
  email ∈ Activity.participants a →
  let st1 := (unregister_from_activity activity_name email st).2 in
  let second := unregister_from_activity activity_name email st1 in
  ∃ l1 l2,
    Activity.participants a = l1 ++ email :: l2
    ∧ (email ∉ l1)
    ∧ (∃ a1, activities st1 !! activity_name = Some a1
             ∧ Activity.participants a1 = l1 ++ l2)
    ∧ (py_count email (Activity.participants a) = 1 →
       (email ∉ l2)
       ∧ second
         = (Raise (HTTPException 400 "Student is not signed up for this activity"),
            st1))
    ∧ (2 ≤ py_count email (Activity.participants a) →
       ∃ l3 l4,
         l2 = l3 ++ email :: l4
         ∧ (email ∉ l3)
         ∧ second.1
           = Return (Message ("Unregistered " +:+ email +:+ " from "
                              +:+ activity_name))
         ∧ ∃ a2, activities second.2 !! activity_name = Some a2
                 ∧ Activity.participants a2 = l1 ++ l3 ++ l4).
Proof.
  intros Hact Hin st1 second. subst second st1.
  destruct (py_remove_present _ _ Hin) as (l1 & l2 & Hl & Hl1 & _).
  rewrite (unregister_from_activity_at _ _ _ _ _ _ Hact Hl Hl1). simpl.
  assert (Hcount : py_count email (Activity.participants a)
                   = S (py_count email l2)).
  { rewrite Hl, py_count_app. simpl. rewrite String.eqb_refl.
    apply py_count_absent in Hl1. lia. }
  exists l1, l2. split_and!; [done | done | | |].
  - eexists. rewrite lookup_insert_eq. by split.
  - intros Hone.
    assert (Hl2 : email ∉ l2) by (apply py_count_absent; lia).
    split; [done|].
    eapply unregister_from_activity_absent; [simpl; apply lookup_insert_eq|].
    simpl. rewrite elem_of_app. tauto.
  - intros Htwo.
    assert (Hin2 : email ∈ l2).
    { destruct (decide (email ∈ l2)) as [|Hout]; [done|].
      apply py_count_absent in Hout. lia. }
    destruct (py_remove_present _ _ Hin2) as (l3 & l4 & Hl2 & Hl3 & _).
    exists l3, l4. split; [done|]. split; [done|].
    erewrite (unregister_from_activity_at _ _ _ _ (l1 ++ l3) l4);
      [| simpl; apply lookup_insert_eq
       | simpl; by rewrite Hl2, app_assoc
       | rewrite elem_of_app; tauto ].
    simpl. split; [done|].
    eexists. rewrite lookup_insert_eq. split; [done|].
    simpl. by rewrite app_assoc.
Qed.

Lemma unregister_twice_witness :
  let st1 := (unregister_from_activity "Chess Club" "michael@mergington.edu"
                initial_state).2 in
  (Activity.participants <$> activities st1 !! "Chess Club"
   = Some ["daniel@mergington.edu"])
  ∧ unregister_from_activity "Chess Club" "michael@mergington.edu" st1
    = (Raise (HTTPException 400 "Student is not signed up for this activity"),
       st1).
Proof.
  intros st1.
  destruct (unregister_twice "Chess Club" "michael@mergington.edu"
              initial_state
              (Activity.mk "Learn strategies and compete in chess tournaments"
                 "Fridays, 3:30 PM - 5:00 PM" 12
                 ["michael@mergington.edu"; "daniel@mergington.edu"]))
    as (l1 & l2 & _ & _ & _ & Honce & _).
  - vm_compute. reflexivity.
  - apply py_in_true. vm_compute. reflexivity.
  - split; [vm_compute; reflexivity|].
    exact (proj2 (Honce eq_refl)).
Defined.

(** ** Upserts and listings *)

(** X22: posting the same attendance record or the same payment a second time
    changes nothing any more, and a post adds an entry to its dictionary only
    when the key was free: the number of entries is otherwise the same. *)
Theorem upsert_idempotent (format_float : float → string) (st : State) :
  (∀ r,
     record_attendance r (record_attendance r st).2 = record_attendance r st
     ∧ size (attendance (record_attendance r st).2)
       = match attendance st !! attendance_key r with
         | Some _ => size (attendance st)
         | None => S (size (attendance st))
         end)
  ∧ (∀ p,
       create_payment format_float p (create_payment format_float p st).2
       = create_payment format_float p st
       ∧ size (payments (create_payment format_float p st).2)
         = match payments st !! payment_key p with
           | Some _ => size (payments st)
           | None => S (size (payments st))
           end).
Proof.
  split.
  - intros r. split.
    + unfold record_attendance. simpl. unfold with_attendance. simpl.
      by rewrite insert_insert_eq.
    + simpl. rewrite map_size_insert. by destruct (attendance st !! _).
  - intros p. split.
    + unfold create_payment. simpl. unfold with_payments. simpl.
      by rewrite insert_insert_eq.
    + simpl. rewrite map_size_insert. by destruct (payments st !! _).
Qed.

Lemma values_insert_fresh {V} (m : gmap string V) k v :
  m !! k = None → values (<[k := v]> m) ≡ₚ v :: values m.
Proof.
  intros Hk. unfold values. by rewrite (map_to_list_insert m k v Hk).
Qed.

Lemma values_insert {V} (m : gmap string V) k v :
  values (<[k := v]> m) ≡ₚ v :: values (delete k m).
Proof.
  rewrite <- insert_delete_eq. apply values_insert_fresh, lookup_delete_eq.
Qed.

Lemma values_delete {V} (m : gmap string V) k v :
  m !! k = Some v → v :: values (delete k m) ≡ₚ values m.
Proof.
  intros Hk. unfold values. by rewrite <- (map_to_list_delete m k v Hk).
Qed.

(** X23: [get_all_enrollments] never raises and changes nothing; it lists one
    record per key and exactly the stored records.  After a successful
    [create_enrollment] the list is the former one with the new enrollment
    added, and after a successful [delete_enrollment] the former list is the
    new one with the removed record added (both up to the order of the list). *)
Theorem get_all_enrollments_spec (st : State) :
  ∃ l, get_all_enrollments st = (Return (EnrollmentList l), st)
       ∧ length l = size (enrollments st)
       ∧ (∀ e, e ∈ l ↔ ∃ k, enrollments st !! k = Some e)
       ∧ (∀ e, enrollments st !! enrollment_key_of e = None →
               ∃ l', (get_all_enrollments (create_enrollment e st).2).1
                     = Return (EnrollmentList l')
                     ∧ l' ≡ₚ e :: l)
       ∧ (∀ student_email course_name e,
            enrollments st !! enrollment_key student_email course_name = Some e →
            ∃ l', (get_all_enrollments
                     (delete_enrollment student_email course_name st).2).1
                  = Return (EnrollmentList l')
                  ∧ e :: l' ≡ₚ l).
Proof.
  eexists. split; [reflexivity|]. split_and!.
  - apply length_values.
  - intros e. apply elem_of_values.
  - intros e Hfree. rewrite create_enrollment_fresh by done.
    eexists. split; [reflexivity|]. simpl. by apply values_insert_fresh.
  - intros student_email course_name e He.
    rewrite delete_enrollment_present by (rewrite He; eauto).
    eexists. split; [reflexivity|]. simpl. by apply values_delete.
Qed.

(** X24: [get_all_attendance] and [get_all_payments] never raise and change
    nothing; each lists one record per key and exactly the stored records.
    After a post, the list is the posted record together with the former
    records of all other keys: a record formerly stored under the same key is
    no longer listed. *)
Theorem get_all_attendance_payments_spec (format_float : float → string)
    (st : State) :
  (∃ l, get_all_attendance st = (Return (AttendanceList l), st)
        ∧ length l = size (attendance st)
        ∧ (∀ r, r ∈ l ↔ ∃ k, attendance st !! k = Some r)
        ∧ ∀ r, ∃ l', (get_all_attendance (record_attendance r st).2).1
                     = Return (AttendanceList l')
                     ∧ l' ≡ₚ r :: values (delete (attendance_key r) (attendance st)))
  ∧ (∃ l, get_all_payments st = (Return (PaymentList l), st)
          ∧ length l = size (payments st)
          ∧ (∀ p, p ∈ l ↔ ∃ k, payments st !! k = Some p)
          ∧ ∀ p, ∃ l', (get_all_payments (create_payment format_float p st).2).1
                       = Return (PaymentList l')
                       ∧ l' ≡ₚ p :: values (delete (payment_key p) (payments st))).
Proof.
  split.
  - eexists. split; [reflexivity|]. split_and!.
    + apply length_values.
    + intros r. apply elem_of_values.
    + intros r. eexists. split; [reflexivity|]. simpl. apply values_insert.
  - eexists. split; [reflexivity|]. split_and!.
    + apply length_values.
    + intros p. apply elem_of_values.
    + intros p. eexists. split; [reflexivity|]. simpl. apply values_insert.
Qed.

(** ** Requests on different entries are independent *)

Lemma state_ext st st' : (∀ m k, same_entry m k st st') → st' = st.
Proof.
  intros H. destruct st, st'. f_equal; apply map_eq; intros k.
  - apply (H Activities k).
  - apply (H Students k).
  - apply (H Courses k).
  - apply (H Enrollments k).
  - apply (H Attendance k).
  - apply (H Payments k).
Qed.

Lemma same_entry_trans m k st1 st2 st3 :
  same_entry m k st1 st2 → same_entry m k st2 st3 → same_entry m k st1 st3.
Proof. destruct m; simpl; congruence. Qed.

Lemma same_entry_sym m k st1 st2 : same_entry m k st1 st2 → same_entry m k st2 st1.
Proof. by destruct m. Qed.

(** A request leaves alone every entry that is not its target. *)
Lemma handle_other_entries format_float req st m k :
  target req ≠ Some (m, k) → same_entry m k st (handle format_float req st).2.
Proof.
  intros Hother.
  assert (Hupd : ∀ m' k', target req = Some (m', k') → m' = m → k' ≠ k).
  { intros m' k' Ht -> ->. by apply Hother. }
  handler_cases req; destruct m; simpl; try done;
    first [ apply lookup_insert_ne | apply lookup_delete_ne ];
    by eapply Hupd.
Qed.

(** What a request answers, and what it leaves under its target, depends on
    the entry under its target only. *)
Lemma handle_local format_float req m k st st' :
  target req = Some (m, k) →
  same_entry m k st st' →
  (handle format_float req st').1 = (handle format_float req st).1
  ∧ same_entry m k (handle format_float req st).2 (handle format_float req st').2.
Proof.
  intros Ht Hsame.
  destruct req; simpl in Ht; try discriminate;
    injection Ht as <- <-; simpl in Hsame; unfold enrollment_key_of in *;
    cbn [handle]; unfold_handlers; rewrite ?Hsame; repeat case_match; simpl;
    rewrite ?lookup_insert_eq, ?lookup_delete_eq; split; congruence.
Qed.

(** X25: two writing requests that address different entries (another
    dictionary, or another key of the same one) do not see each other: each
    answers what it would have answered alone, and after both orders of
    serving them every key of every dictionary holds the same entry, or none.
    The statement is about the entries under the keys only: the order in
    which a dictionary enumerates its entries is not part of it, so the lists
    of enrollments, attendance records and payments after the two orders are
    stated to hold the same records, not to be in the same order. *)
Theorem writes_to_different_entries_commute (format_float : float → string)
    (req1 req2 : request) (st : State) :
  is_Some (target req1) →
  is_Some (target req2) →
  target req1 ≠ target req2 →
  (handle format_float req2 (handle format_float req1 st).2).1
  = (handle format_float req2 st).1
  ∧ (handle format_float req1 (handle format_float req2 st).2).1
    = (handle format_float req1 st).1
  ∧ let s12 := (handle format_float req2 (handle format_float req1 st).2).2 in
    let s21 := (handle format_float req1 (handle format_float req2 st).2).2 in
    (∀ m k, same_entry m k s21 s12)
    ∧ values (enrollments s12) ≡ₚ values (enrollments s21)
    ∧ values (attendance s12) ≡ₚ values (attendance s21)
    ∧ values (payments s12) ≡ₚ values (payments s21).
Proof.
  intros [[m1 k1] Ht1] [[m2 k2] Ht2] Hne.
  assert (H12 : target req1 ≠ Some (m2, k2)) by congruence.
  assert (H21 : target req2 ≠ Some (m1, k1)) by congruence.
  pose proof (handle_other_entries format_float req1 st m2 k2 H12) as Hkeep2.
  pose proof (handle_other_entries format_float req2 st m1 k1 H21) as Hkeep1.
  destruct (handle_local format_float req2 m2 k2 st _ Ht2 Hkeep2) as [Hans2 Hent2].
  destruct (handle_local format_float req1 m1 k1 st _ Ht1 Hkeep1) as [Hans1 Hent1].
  split; [done|]. split; [done|]. intros s12 s21.
  assert (Hentries : ∀ m k, same_entry m k s21 s12);
    [| split; [exact Hentries|];
       rewrite (state_ext _ _ Hentries); by split_and! ].
  subst s12 s21. intros m k.
  set (s1 := (handle format_float req1 st).2) in *.
  set (s2 := (handle format_float req2 st).2) in *.
  destruct (decide (Some (m, k) = target req1)) as [Heq1|Hn1];
    [|destruct (decide (Some (m, k) = target req2)) as [Heq2|Hn2]].
  - rewrite Ht1 in Heq1. injection Heq1 as -> ->.
    eapply same_entry_trans; [apply same_entry_sym, Hent1|].
    by apply handle_other_entries.
  - rewrite Ht2 in Heq2. injection Heq2 as -> ->.
    eapply same_entry_trans; [|apply Hent2].
    apply same_entry_sym. by apply handle_other_entries.
  - apply (same_entry_trans _ _ _ s2);
      [apply same_entry_sym, handle_other_entries; congruence|].
    apply (same_entry_trans _ _ _ st);
      [apply same_entry_sym, handle_other_entries; congruence|].
    apply (same_entry_trans _ _ _ s1);
      apply handle_other_entries; congruence.
Qed.

Lemma writes_to_different_entries_commute_witness :
  let ann := CreateEnrollment (Enrollment.mk "ann@mergington.edu" "Algebra" "2024-09-02") in
  let bob := CreateEnrollment (Enrollment.mk "bob@mergington.edu" "Algebra" "2024-09-03") in
  let s12 := (handle (λ _, "0.0") bob (handle (λ _, "0.0") ann initial_state).2).2 in
  let s21 := (handle (λ _, "0.0") ann (handle (λ _, "0.0") bob initial_state).2).2 in
  enrollments s12 !! "ann@mergington.edu_Algebra"
  = enrollments s21 !! "ann@mergington.edu_Algebra"
  ∧ enrollments s12 !! "bob@mergington.edu_Algebra"
    = enrollments s21 !! "bob@mergington.edu_Algebra"
  ∧ values (enrollments s12) ≡ₚ values (enrollments s21).
Proof.
  intros ann bob s12 s21.
  destruct (writes_to_different_entries_commute (λ _, "0.0") ann bob initial_state)
    as (_ & _ & Hentries & Hlist & _).
  - exact (ex_intro _ (Enrollments, "ann@mergington.edu_Algebra") eq_refl).
  - exact (ex_intro _ (Enrollments, "bob@mergington.edu_Algebra") eq_refl).
  - discriminate.
  - split; [exact (Hentries Enrollments "ann@mergington.edu_Algebra")|].
    split; [exact (Hentries Enrollments "bob@mergington.edu_Algebra")|].
    exact Hlist.
Defined.

(** ** After an update under another email *)

(** X26: when [update_student] stores a body whose email is no key of the
    dictionary under another, existing path email, the stored record cannot be
    reached by its own email: deleting by that email raises 404, and creating
    the same student again succeeds, so that two entries carry one email. *)
Theorem rekeyed_student_unreachable_by_email
    (student_email : string) (student : Student.t) (st : State) :
  is_Some (students st !! student_email) →
  students st !! Student.email student = None →
  let st' := (update_student student_email student st).2 in
  students st' !! student_email = Some student
  ∧ delete_student (Student.email student) st'
    = (Raise (HTTPException 404 "Student not found"), st')
  ∧ (create_student student st').1
    = Return (Message ("Student " +:+ Student.name student
                       +:+ " created successfully"))
  ∧ students (create_student student st').2 !! student_email = Some student
  ∧ students (create_student student st').2 !! Student.email student
    = Some student.
Proof.
  intros Hkey Hfree st'. subst st'.
  assert (Hne : student_email ≠ Student.email student).
  { intros ->. rewrite Hfree in Hkey. by destruct Hkey. }
  rewrite update_student_present by done. simpl.
  assert (Hstill : <[student_email := student]> (students st)
                     !! Student.email student = None).
  { by rewrite lookup_insert_ne. }
  split_and!.
  - apply lookup_insert_eq.
  - by apply delete_student_unknown.
  - by rewrite create_student_fresh.
  - rewrite create_student_fresh by done. simpl.
    rewrite lookup_insert_ne by done. apply lookup_insert_eq.
  - rewrite create_student_fresh by done. simpl. apply lookup_insert_eq.
Qed.

Lemma rekeyed_student_unreachable_by_email_witness :
  let ann := Student.mk "Ann" "ann@mergington.edu" "10" None in
  let body := Student.mk "Ann" "ann.lee@mergington.edu" "10" None in
  let st := (create_student ann initial_state).2 in
  let st' := (update_student "ann@mergington.edu" body st).2 in
  delete_student "ann.lee@mergington.edu" st'
  = (Raise (HTTPException 404 "Student not found"), st').
Proof.
  intros ann body st st'.
  refine (proj1 (proj2 (rekeyed_student_unreachable_by_email
                          "ann@mergington.edu" body st _ _))).
  - exists ann. vm_compute. reflexivity.
  - vm_compute. reflexivity.
Defined.

(** ** A posted record is found by its student *)

(** X27: right after [record_attendance] the posted record is in the list
    [get_student_attendance] returns for the record's email, and right after
    [create_payment] the posted payment is in the list [get_student_payments]
    returns for the payment's email. *)
Theorem posted_record_found_by_student (format_float : float → string)
    (st : State) :
  (∀ r, ∃ l,
     (get_student_attendance (AttendanceRecord.student_email r)
        (record_attendance r st).2).1 = Return (AttendanceList l)
     ∧ r ∈ l)
  ∧ (∀ p, ∃ l,
       (get_student_payments (Payment.student_email p)
          (create_payment format_float p st).2).1 = Return (PaymentList l)
       ∧ p ∈ l).
Proof.
  split.
  - intros r. eexists. split; [reflexivity|].
    apply list_elem_of_filter. split; [done|].
    apply elem_of_values. exists (attendance_key r). simpl.
    apply lookup_insert_eq.
  - intros p. eexists. split; [reflexivity|].
    apply list_elem_of_filter. split; [done|].
    apply elem_of_values. exists (payment_key p). simpl.
    apply lookup_insert_eq.
Qed.
